(** * OpenSCADKit: the C bridge of the render pipeline

    A shallow embedding of [src/io/export_cbridge.cc]: the mesh extractor
    [extractMeshData], the one-time initialisation [openscad_init], the
    render entry point [openscad_render] and [openscad_cancel].

    - machine integers are [Z] with the wrap-around written out ([u32] for
      [uint32_t], [usize] for [size_t]);
    - [std::vector<T>] is [list T]; [operator[]] is a checked access that
      yields [None] out of range (undefined behaviour in C++);
    - the floating-point arithmetic and the Eigen vector operations are an
      interface ([Numeric]); an IEEE-754 instance built on [SpecFloat]
      makes every definition executable;
    - the OpenSCAD engine (parser, evaluator, geometry kernel) is an
      interface ([Engine]) of fallible, effectful stages that may write to
      the console, throw, and during which another thread may call
      [openscad_cancel];
    - memory exhaustion ([std::bad_alloc]) is not modelled. *)

From Stdlib Require Import ZArith Lia.
From Stdlib Require Import Floats.SpecFloat.
From stdpp Require Import base option list strings.

Local Open Scope Z_scope.

(** ** Machine integers *)

(** [uint32_t]: arithmetic modulo 2^32. *)
Definition u32 (z : Z) : Z := z mod 2 ^ 32.

(** [size_t] on the 64-bit targets of the package: arithmetic modulo 2^64. *)
Definition usize (z : Z) : Z := z mod 2 ^ 64.

(** ** [std::vector] accesses *)

(** [v[i]] as an rvalue. *)
Definition vec_get {A : Type} (v : list A) (i : Z) : option A :=
  if bool_decide (0 <= i) then v !! Z.to_nat i else None.

(** [v[i] = x]. *)
Definition vec_set {A : Type} (v : list A) (i : Z) (x : A) : option (list A) :=
  if bool_decide (0 <= i < Z.of_nat (length v))
  then Some (<[Z.to_nat i := x]> v) else None.

(** A loop whose body may hit undefined behaviour. *)
Fixpoint for_each {A S : Type} (body : S -> A -> option S) (l : list A) (s : S)
  : option S :=
  match l with
  | [] => Some s
  | a :: l' => s' ← body s a; for_each body l' s'
  end.

(** ** Floating-point and Eigen operations

    [double] and [float] scalars and Eigen's [Vector3d], with exactly the
    operations the bridge uses. *)
Class Numeric := {
  double : Type;
  float : Type;
  Vector3d : Type;
  vec_x : Vector3d -> double;
  vec_y : Vector3d -> double;
  vec_z : Vector3d -> double;
  (** [a - b] *)
  vec_sub : Vector3d -> Vector3d -> Vector3d;
  (** [a.cross(b)] *)
  vec_cross : Vector3d -> Vector3d -> Vector3d;
  (** [a.norm()] *)
  vec_norm : Vector3d -> double;
  (** [a /= s] *)
  vec_div : Vector3d -> double -> Vector3d;
  (** [d > 0] on [double] *)
  d_gt0 : double -> bool;
  (** [static_cast<float>(d)] *)
  to_float : double -> float;
  (** [0.0f] and [1.0f] *)
  f_zero : float;
  f_one : float;
  f_add : float -> float -> float;
  f_mul : float -> float -> float;
  f_div : float -> float -> float;
  (** [std::sqrt] on [float] *)
  f_sqrt : float -> float;
  (** [f > 0] on [float] *)
  f_gt0 : float -> bool;
}.

(** ** The IEEE-754 instance *)
Module IEEE.

(** binary64 *)
Definition prec64 : Z := 53.
Definition emax64 : Z := 1024.
(** binary32 *)
Definition prec32 : Z := 24.
Definition emax32 : Z := 128.

Definition dadd := SFadd prec64 emax64.
Definition dsub := SFsub prec64 emax64.
Definition dmul := SFmul prec64 emax64.
Definition ddiv := SFdiv prec64 emax64.
Definition dsqrt := SFsqrt prec64 emax64.

Definition gt0 (x : spec_float) : bool := SFltb (S754_zero false) x.

(** Round a binary64 value to binary32 (to nearest, ties to even). *)
Definition narrow (d : spec_float) : spec_float :=
  match d with
  | S754_finite s m e => binary_round prec32 emax32 s m e
  | _ => d
  end.

(** An integer as a binary64 value. *)
Definition of_Z (z : Z) : spec_float := binary_normalize prec64 emax64 z 0 false.

Record vec3 := Vec3 { X : spec_float; Y : spec_float; Z_ : spec_float }.

Definition sub (a b : vec3) : vec3 :=
  Vec3 (dsub (X a) (X b)) (dsub (Y a) (Y b)) (dsub (Z_ a) (Z_ b)).

Definition cross (a b : vec3) : vec3 :=
  Vec3 (dsub (dmul (Y a) (Z_ b)) (dmul (Z_ a) (Y b)))
       (dsub (dmul (Z_ a) (X b)) (dmul (X a) (Z_ b)))
       (dsub (dmul (X a) (Y b)) (dmul (Y a) (X b))).

Definition norm (a : vec3) : spec_float :=
  dsqrt (dadd (dadd (dmul (X a) (X a)) (dmul (Y a) (Y a))) (dmul (Z_ a) (Z_ a))).

Definition div (a : vec3) (s : spec_float) : vec3 :=
  Vec3 (ddiv (X a) s) (ddiv (Y a) s) (ddiv (Z_ a) s).

(** A vertex with integer coordinates. *)
Definition pt (x y z : Z) : vec3 := Vec3 (of_Z x) (of_Z y) (of_Z z).

#[export] Instance numeric : Numeric := {|
  double := spec_float;
  float := spec_float;
  Vector3d := vec3;
  vec_x := X; vec_y := Y; vec_z := Z_;
  vec_sub := sub;
  vec_cross := cross;
  vec_norm := norm;
  vec_div := div;
  d_gt0 := gt0;
  to_float := narrow;
  f_zero := S754_zero false;
  f_one := narrow (of_Z 1);
  f_add := SFadd prec32 emax32;
  f_mul := SFmul prec32 emax32;
  f_div := SFdiv prec32 emax32;
  f_sqrt := SFsqrt prec32 emax32;
  f_gt0 := gt0;
|}.

End IEEE.

(** ** Data *)

Section Data.
Context `{Numeric}.

(** [PolySet]: the vertex list and the faces ([ps->indices], each face a
    vector of [int] vertex indices). *)
Record PolySet := {
  ps_vertices : list Vector3d;
  ps_indices : list (list Z);
}.

(** [struct OpenSCADRenderResult]. *)
Record OpenSCADRenderResult := {
  success : bool;
  error_message : string;
  console_output : string;
  positions : list float;
  normals : list float;
  indices : list Z;
  vertex_count : Z;
  triangle_count : Z;
}.

(** [new OpenSCADRenderResult()] followed by the three assignments at the
    head of [openscad_render]. *)
Definition new_result : OpenSCADRenderResult := {|
  success := false;
  error_message := "";
  console_output := "";
  positions := [];
  normals := [];
  indices := [];
  vertex_count := 0;
  triangle_count := 0;
|}.

End Data.

(** ** Mesh extraction: the loops of [extractMeshData] *)

Section Extraction.
Context `{Numeric}.

(** [v[i] += x] on a vector of [float]. *)
Definition vec_add (v : list float) (i : Z) (x : float) : option (list float) :=
  a ← vec_get v i; vec_set v i (f_add a x).

(** Body of the first loop: copy a vertex and push a zero normal. *)
Definition push_vertex (pn : list float * list float) (v : Vector3d)
  : list float * list float :=
  (pn.1 ++ [to_float (vec_x v); to_float (vec_y v); to_float (vec_z v)],
   pn.2 ++ [f_zero; f_zero; f_zero]).

(** Body of [for (uint32_t idx : {i0, i1, i2})]. *)
Definition accumulate (normal : Vector3d) (nrm : list float) (idx : Z)
  : option (list float) :=
  nrm ← vec_add nrm (u32 (u32 (idx * 3) + 0)) (to_float (vec_x normal));
  nrm ← vec_add nrm (u32 (u32 (idx * 3) + 1)) (to_float (vec_y normal));
  vec_add nrm (u32 (u32 (idx * 3) + 2)) (to_float (vec_z normal)).

(** Body of [for (const auto& face : ps->indices)]. *)
Definition face_step (vertices : list Vector3d) (vertexCount : Z)
    (st : list Z * list float) (face : list Z) : option (list Z * list float) :=
  match face with
  | f0 :: f1 :: f2 :: _ =>
      let i0 := u32 f0 in
      let i1 := u32 f1 in
      let i2 := u32 f2 in
      let ids := st.1 ++ [i0; i1; i2] in
      if (i0 <? vertexCount) && (i1 <? vertexCount) && (i2 <? vertexCount) then
        v0 ← vec_get vertices i0;
        v1 ← vec_get vertices i1;
        v2 ← vec_get vertices i2;
        let edge1 := vec_sub v1 v0 in
        let edge2 := vec_sub v2 v0 in
        let normal := vec_cross edge1 edge2 in
        let len := vec_norm normal in
        if d_gt0 len then
          let normal := vec_div normal len in
          nrm ← for_each (accumulate normal) [i0; i1; i2] st.2;
          Some (ids, nrm)
        else Some (ids, st.2)
      else Some (ids, st.2)
  | _ => Some st
  end.

(** Body of [for (size_t i = 0; i < vertexCount; ++i)]. *)
Definition normalize_vertex (nrm : list float) (i : Z) : option (list float) :=
  nx ← vec_get nrm (usize (usize (i * 3) + 0));
  ny ← vec_get nrm (usize (usize (i * 3) + 1));
  nz ← vec_get nrm (usize (usize (i * 3) + 2));
  let len := f_sqrt (f_add (f_add (f_mul nx nx) (f_mul ny ny)) (f_mul nz nz)) in
  if f_gt0 len then
    nrm ← vec_set nrm (usize (usize (i * 3) + 0)) (f_div nx len);
    nrm ← vec_set nrm (usize (usize (i * 3) + 1)) (f_div ny len);
    vec_set nrm (usize (usize (i * 3) + 2)) (f_div nz len)
  else
    nrm ← vec_set nrm (usize (usize (i * 3) + 0)) f_zero;
    nrm ← vec_set nrm (usize (usize (i * 3) + 1)) f_zero;
    vec_set nrm (usize (usize (i * 3) + 2)) f_one.

(** The values [0, 1, ..., n-1] of a counting loop. *)
Definition upto (n : nat) : list Z := Z.of_nat <$> seq 0 n.

(** Lines 100-170 of [extractMeshData]: everything after the mesh [ps]
    has been chosen.  [None] is an out-of-bounds access. *)
Definition fill_mesh (ps : PolySet) (result : OpenSCADRenderResult)
  : option OpenSCADRenderResult :=
  let vertexCount := Z.of_nat (length (ps_vertices ps)) in
  let pn := fold_left push_vertex (ps_vertices ps) (positions result, normals result) in
  st ← for_each (face_step (ps_vertices ps) vertexCount) (ps_indices ps)
                (indices result, pn.2);
  nrm ← for_each normalize_vertex (upto (length (ps_vertices ps))) st.2;
  Some {| success := success result;
          error_message := error_message result;
          console_output := console_output result;
          positions := pn.1;
          normals := nrm;
          indices := st.1;
          vertex_count := vertexCount;
          triangle_count := Z.of_nat (length st.1) / 3 |}.

End Extraction.


(** ** The engine and the process state *)

(** What a [catch] clause can see of a thrown object: a [std::exception]
    with its [what()] text, or anything else. *)
Inductive Fault :=
| StdException (what : string)
| OtherFault.

(** How a computation ends: normally, by throwing, or in undefined
    behaviour (an out-of-bounds vector access). *)
Inductive Outcome (A : Type) :=
| Ok (a : A)
| Throw (f : Fault)
| Undefined.
Arguments Ok {A} a.
Arguments Throw {A} f.
Arguments Undefined {A}.

(** What one call into the engine does: it returns or throws, leaves the
    engine in a new state, writes [eff_text] to [std::cout]/[std::cerr],
    and [eff_cancel] tells whether another thread called [openscad_cancel]
    while it ran. *)
Record Effect (E A : Type) := {
  eff_value : A + Fault;
  eff_engine : E;
  eff_text : string;
  eff_cancel : bool;
}.
Arguments eff_value {E A} _.
Arguments eff_engine {E A} _.
Arguments eff_text {E A} _.
Arguments eff_cancel {E A} _.

(** The OpenSCAD core the bridge drives (headers [openscad.h], [core/...],
    [geometry/...]); none of it is part of the bridge. *)
Class Engine `{Numeric} := {
  EngineState : Type;
  SourceFile : Type;
  AbstractNode : Type;
  Geometry : Type;
  (** [PlatformUtils::registerApplicationPath] and
      [Builtins::instance()->initialize()] *)
  engine_setup : EngineState -> Effect EngineState unit;
  (** [parse(source_file, source_str, filename, filename, 0)]: the returned
      flag and the [SourceFile*] it stores *)
  parse : string -> EngineState -> Effect EngineState (bool * option SourceFile);
  (** the session, the builtin context and [source_file->instantiate] *)
  instantiate : SourceFile -> EngineState -> Effect EngineState (option AbstractNode);
  (** [Tree], [GeometryEvaluator] and [evaluateGeometry] *)
  evaluateGeometry : AbstractNode -> EngineState -> Effect EngineState (option Geometry);
  (** [PolySetUtils::getGeometryAsPolySet] *)
  getGeometryAsPolySet : Geometry -> EngineState -> Effect EngineState (option PolySet);
  (** [PolySet::isEmpty] and [PolySet::isTriangular] *)
  isEmpty : PolySet -> bool;
  isTriangular : PolySet -> bool;
  (** [PolySetUtils::tessellate_faces] *)
  tessellate_faces : PolySet -> EngineState -> Effect EngineState (option PolySet);
}.

Section Bridge.
Context `{Engine}.

(** The two atomics of the bridge, the [CaptureBuffer] that the running
    render has installed on the two streams, and the engine. *)
Record World := {
  g_initialized : bool;
  g_cancelled : bool;
  captured : string;
  engine : EngineState;
}.

(** Computations of the bridge: state passing with exceptions. *)
Definition M (A : Type) : Type := World -> Outcome A * World.

Definition ret {A : Type} (a : A) : M A := fun w => (Ok a, w).

Definition bind {A B : Type} (m : M A) (k : A -> M B) : M B :=
  fun w =>
    match m w with
    | (Ok a, w') => k a w'
    | (Throw f, w') => (Throw f, w')
    | (Undefined, w') => (Undefined, w')
    end.

(** [try { m } catch (...) { handler }] *)
Definition try_catch {A : Type} (m : M A) (handler : Fault -> M A) : M A :=
  fun w =>
    match m w with
    | (Throw f, w') => handler f w'
    | r => r
    end.

(** A checked vector computation inside [M]. *)
Definition lift {A : Type} (o : option A) : M A :=
  fun w => (match o with Some a => Ok a | None => Undefined end, w).

(** A call into the engine: its text goes to the capture buffer, and a
    concurrent [openscad_cancel] raises the flag. *)
Definition call {A : Type} (stage : EngineState -> Effect EngineState A) : M A :=
  fun w =>
    let r := stage (engine w) in
    (match eff_value r with inl a => Ok a | inr f => Throw f end,
     {| g_initialized := g_initialized w;
        g_cancelled := g_cancelled w || eff_cancel r;
        captured := String.append (captured w) (eff_text r);
        engine := eff_engine r |}).

(** The same while no capture buffer is installed: the text is lost. *)
Definition call_uncaptured {A : Type} (stage : EngineState -> Effect EngineState A)
  : M A :=
  fun w =>
    let r := stage (engine w) in
    (match eff_value r with inl a => Ok a | inr f => Throw f end,
     {| g_initialized := g_initialized w;
        g_cancelled := g_cancelled w || eff_cancel r;
        captured := captured w;
        engine := eff_engine r |}).

(** [g_initialized.exchange(b)] *)
Definition exchange_initialized (b : bool) : M bool :=
  fun w => (Ok (g_initialized w),
            {| g_initialized := b; g_cancelled := g_cancelled w;
               captured := captured w; engine := engine w |}).

Definition set_initialized (b : bool) : M unit :=
  fun w => (Ok tt,
            {| g_initialized := b; g_cancelled := g_cancelled w;
               captured := captured w; engine := engine w |}).

Definition get_initialized : M bool := fun w => (Ok (g_initialized w), w).

Definition set_cancelled (b : bool) : M unit :=
  fun w => (Ok tt,
            {| g_initialized := g_initialized w; g_cancelled := b;
               captured := captured w; engine := engine w |}).

Definition get_cancelled : M bool := fun w => (Ok (g_cancelled w), w).

(** [CaptureBuffer capture;] and the two [rdbuf(&capture)] calls. *)
Definition install_capture : M unit :=
  fun w => (Ok tt,
            {| g_initialized := g_initialized w; g_cancelled := g_cancelled w;
               captured := ""; engine := engine w |}).

Definition get_captured : M string := fun w => (Ok (captured w), w).

End Bridge.

Declare Scope bridge_scope.
Delimit Scope bridge_scope with bridge.
Notation "x <- m ;; k" := (bind m (fun x => k))
  (at level 100, m at next level, right associativity) : bridge_scope.
Notation "m ;;; k" := (bind m (fun _ => k))
  (at level 100, right associativity) : bridge_scope.

Section Render.
Context `{Engine}.
Local Open Scope bridge_scope.

(** [result->error_message = msg; result->console_output = text;] *)
Definition set_failure (result : OpenSCADRenderResult) (msg text : string)
  : OpenSCADRenderResult :=
  {| success := success result;
     error_message := msg;
     console_output := text;
     positions := positions result;
     normals := normals result;
     indices := indices result;
     vertex_count := vertex_count result;
     triangle_count := triangle_count result |}.

(** [result->error_message = msg;] *)
Definition set_error (result : OpenSCADRenderResult) (msg : string)
  : OpenSCADRenderResult :=
  set_failure result msg (console_output result).

(** [result->success = true; result->console_output = text;] *)
Definition set_success (result : OpenSCADRenderResult) (text : string)
  : OpenSCADRenderResult :=
  {| success := true;
     error_message := error_message result;
     console_output := text;
     positions := positions result;
     normals := normals result;
     indices := indices result;
     vertex_count := vertex_count result;
     triangle_count := triangle_count result |}.

(** The result of every error exit of [openscad_render]: the fresh result
    with a message and the captured text. *)
Definition failure (msg text : string) : OpenSCADRenderResult :=
  set_failure new_result msg text.

(** An error exit of the [try] block: set the message, attach the
    captured text, return. *)
Definition fail_with (result : OpenSCADRenderResult) (msg : string)
  : M OpenSCADRenderResult :=
  text <- get_captured ;; ret (set_failure result msg text).

(** Lines 86-98 of [extractMeshData]: the mesh the loops run on is the
    input when it is triangular, else its tessellation, else (when the
    tessellator returns nothing) the input again. *)
Definition choose_mesh (polyset : PolySet) : M PolySet :=
  if negb (isTriangular polyset) then
    triangulated <- call (tessellate_faces polyset) ;;
    ret (match triangulated with
         | Some t => t
         | None => polyset
         end)
  else ret polyset.

(** [extractMeshData(polyset, result)] *)
Definition extractMeshData (polyset : PolySet) (result : OpenSCADRenderResult)
  : M OpenSCADRenderResult :=
  ps <- choose_mesh polyset ;;
  lift (fill_mesh ps result).

(** [openscad_init()] *)
Definition openscad_init : M Z :=
  already <- exchange_initialized true ;;
  if already then ret 0
  else
    try_catch
      (call_uncaptured engine_setup ;;; ret 0)
      (fun _ => set_initialized false ;;; ret (-1)).

(** The body of the [try] block of [openscad_render]. *)
Definition render_try (scad_source : string) (result : OpenSCADRenderResult)
  : M OpenSCADRenderResult :=
  p <- call (parse scad_source) ;;
  match p with
  | (true, Some source_file) =>
      c <- get_cancelled ;;
      if c then fail_with result "Render cancelled" else
      root <- call (instantiate source_file) ;;
      match root with
      | None => fail_with result "Failed to instantiate module"
      | Some root_node =>
          c <- get_cancelled ;;
          if c then fail_with result "Render cancelled" else
          g <- call (evaluateGeometry root_node) ;;
          match g with
          | None => fail_with result "Failed to evaluate geometry"
          | Some geometry =>
              c <- get_cancelled ;;
              if c then fail_with result "Render cancelled" else
              q <- call (getGeometryAsPolySet geometry) ;;
              match q with
              | None => fail_with result "Geometry produced no mesh data"
              | Some polyset =>
                  if isEmpty polyset
                  then fail_with result "Geometry produced no mesh data"
                  else
                    result <- extractMeshData polyset result ;;
                    text <- get_captured ;;
                    ret (set_success result text)
              end
          end
      end
  | _ => fail_with result "Failed to parse OpenSCAD source"
  end.

(** The text a handler of [openscad_render] stores for a fault. *)
Definition fault_message (f : Fault) : string :=
  match f with
  | StdException what => String.append "Exception: " what
  | OtherFault => "Unknown exception during render"
  end.

(** The head of [openscad_render]: reset the cancellation flag and make
    sure the engine is initialised.  Returns whether it is. *)
Definition render_prologue : M bool :=
  set_cancelled false ;;;
  init <- get_initialized ;;
  if init then ret true
  else rc <- openscad_init ;; ret (rc =? 0).

(** [openscad_render(scad_source, fonts_path)] *)
Definition openscad_render (scad_source : string) (fonts_path : option string)
  : M OpenSCADRenderResult :=
  let result := new_result in
  ready <- render_prologue ;;
  if negb ready
  then ret (set_error result "Failed to initialize OpenSCAD engine")
  else
    install_capture ;;;
    try_catch
      (render_try scad_source result)
      (fun f => text <- get_captured ;;
                ret (set_failure result (fault_message f) text)).

(** [openscad_cancel()] *)
Definition openscad_cancel : M unit := set_cancelled true.

End Render.

(** ** The mesh extractor in the words of its specification

    Per-vertex accumulators instead of a flat array, unbounded indices
    instead of 32-bit products; compared with [fill_mesh] below. *)

Section ExtractorSpec.
Context `{Numeric}.

(** A vertex normal, or its accumulator. *)
Definition Normal : Type := float * float * float.

Definition zero_normal : Normal := (f_zero, f_zero, f_zero).
Definition default_normal : Normal := (f_zero, f_zero, f_one).

(** The triangle a face contributes: its first three vertex indices as
    stored in the [uint32_t] index array; nothing for a shorter face. *)
Definition triangle_of (face : list Z) : list Z :=
  match face with
  | f0 :: f1 :: f2 :: _ => [u32 f0; u32 f1; u32 f2]
  | _ => []
  end.

(** The geometric normal of a face: the normalised cross product of the
    edges [v1 - v0] and [v2 - v0] of its triangle.  There is none when the
    face has no triangle, when one of its three vertices does not exist,
    or when the cross product has no positive length. *)
Definition face_normal (vertices : list Vector3d) (face : list Z) : option Vector3d :=
  match triangle_of face with
  | [i0; i1; i2] =>
      v0 ← vec_get vertices i0;
      v1 ← vec_get vertices i1;
      v2 ← vec_get vertices i2;
      let c := vec_cross (vec_sub v1 v0) (vec_sub v2 v0) in
      if d_gt0 (vec_norm c) then Some (vec_div c (vec_norm c)) else None
  | _ => None
  end.

(** Unweighted accumulation of a face normal. *)
Definition add_normal (n : Vector3d) (acc : Normal) : Normal :=
  (f_add acc.1.1 (to_float (vec_x n)),
   f_add acc.1.2 (to_float (vec_y n)),
   f_add acc.2 (to_float (vec_z n))).

(** A face adds its normal to the accumulator of each of its three
    vertices, in the order [i0], [i1], [i2]. *)
Definition accumulate_face (vertices : list Vector3d) (accs : list Normal)
    (face : list Z) : list Normal :=
  match face_normal vertices face with
  | Some n => foldl (fun a i => alter (add_normal n) (Z.to_nat i) a) accs (triangle_of face)
  | None => accs
  end.

(** Normalise an accumulated normal; the default normal when its length
    is not positive. *)
Definition finish_normal (acc : Normal) : Normal :=
  let nx := acc.1.1 in
  let ny := acc.1.2 in
  let nz := acc.2 in
  let len := f_sqrt (f_add (f_add (f_mul nx nx) (f_mul ny ny)) (f_mul nz nz)) in
  if f_gt0 len then (f_div nx len, f_div ny len, f_div nz len) else default_normal.

(** The unit normal of every vertex of a mesh. *)
Definition vertex_normals (ps : PolySet) : list Normal :=
  finish_normal <$>
    foldl (accumulate_face (ps_vertices ps))
          (replicate (length (ps_vertices ps)) zero_normal)
          (ps_indices ps).

(** The flat layout of the result arrays. *)
Definition interleave (l : list Normal) : list float :=
  l ≫= (fun n => [n.1.1; n.1.2; n.2]).

(** Apply [g] to the [k]-th component of a normal. *)
Definition on_component (k : nat) (g : float -> float) (n : Normal) : Normal :=
  match k with
  | O => (g n.1.1, n.1.2, n.2)
  | S O => (n.1.1, g n.1.2, n.2)
  | _ => (n.1.1, n.1.2, g n.2)
  end.

Definition component (k : nat) (n : Normal) : float :=
  match k with
  | O => n.1.1
  | S O => n.1.2
  | _ => n.2
  end.

Definition coordinates (v : Vector3d) : list float :=
  [to_float (vec_x v); to_float (vec_y v); to_float (vec_z v)].

(** A mesh without its faces of fewer than three vertices. *)
Definition drop_short_faces (ps : PolySet) : PolySet :=
  {| ps_vertices := ps_vertices ps;
     ps_indices := filter (fun face => (3 <= length face)%nat) (ps_indices ps) |}.

(** A mesh whose triangles only name existing vertices. *)
Definition well_indexed (ps : PolySet) : Prop :=
  Forall (fun face => Forall (fun i => i < Z.of_nat (length (ps_vertices ps)))
                             (triangle_of face))
         (ps_indices ps).

End ExtractorSpec.

(** ** A scripted engine, to run the bridge on concrete inputs *)

Module Toy.
Import IEEE.

(** The stages during which another thread may be told to cancel. *)
Inductive Stage := Parsing | Instantiating | Evaluating | Converting.

Definition same_stage (a b : Stage) : bool :=
  match a, b with
  | Parsing, Parsing | Instantiating, Instantiating
  | Evaluating, Evaluating | Converting, Converting => true
  | _, _ => false
  end.

(** What the engine is told to do.  Its state counts the runs of the
    one-time setup. *)
Record Script := {
  setup_fault : option Fault;
  parse_fault : option Fault;
  (** the stage during which [openscad_cancel] is called, if any *)
  cancel_during : option Stage;
  (** the mesh every source evaluates to *)
  mesh : PolySet;
  (** what tessellation returns *)
  tessellated : option PolySet;
}.

Definition cancels (s : Script) (st : Stage) : bool :=
  match cancel_during s with
  | Some st' => same_stage st st'
  | None => false
  end.

Definition returns {A : Type} (a : A) (text : string) (cancel : bool) (n : nat)
  : Effect nat A :=
  {| eff_value := inl a; eff_engine := n; eff_text := text; eff_cancel := cancel |}.

Definition throws {A : Type} (f : Fault) (text : string) (n : nat) : Effect nat A :=
  {| eff_value := inr f; eff_engine := n; eff_text := text; eff_cancel := false |}.

Definition all_triangles (ps : PolySet) : bool :=
  forallb (fun face => Nat.eqb (length face) 3) (ps_indices ps).

Definition no_faces (ps : PolySet) : bool :=
  match ps_indices ps with [] => true | _ => false end.

#[export] Instance scripted (s : Script) : Engine := {|
  EngineState := nat;
  SourceFile := string;
  AbstractNode := unit;
  Geometry := unit;
  engine_setup n :=
    match setup_fault s with
    | Some f => throws f "" (S n)
    | None => returns tt "" false (S n)
    end;
  parse src n :=
    match parse_fault s with
    | Some f => throws f "ERROR: parser;" n
    | None => returns (true, Some src) "parsed;" (cancels s Parsing) n
    end;
  instantiate _ := returns (Some tt) "instantiated;" (cancels s Instantiating);
  evaluateGeometry _ := returns (Some tt) "evaluated;" (cancels s Evaluating);
  getGeometryAsPolySet _ := returns (Some (mesh s)) "converted;" (cancels s Converting);
  isEmpty := no_faces;
  isTriangular := all_triangles;
  tessellate_faces _ := returns (tessellated s) "tessellated;" false;
|}.

(** A right triangle in the plane [z = 0]. *)
Definition triangle : PolySet :=
  {| ps_vertices := [pt 0 0 0; pt 1 0 0; pt 0 1 0];
     ps_indices := [[0; 1; 2]] |}.

(** The same vertices with a face that names a vertex 7. *)
Definition dangling : PolySet :=
  {| ps_vertices := [pt 0 0 0; pt 1 0 0; pt 0 1 0];
     ps_indices := [[0; 1; 7]] |}.

(** Two triangles sharing an edge, a two-vertex face and a degenerate
    triangle. *)
Definition sheet : PolySet :=
  {| ps_vertices := [pt 0 0 0; pt 1 0 0; pt 0 1 0; pt 1 1 1];
     ps_indices := [[0; 1; 2]; [2; 1]; [1; 3; 2]; [0; 0; 1]] |}.

Definition plain (m : PolySet) : Script :=
  {| setup_fault := None; parse_fault := None; cancel_during := None;
     mesh := m; tessellated := None |}.

Definition broken_setup : Script :=
  {| setup_fault := Some (StdException "no builtins"); parse_fault := None;
     cancel_during := None; mesh := triangle; tessellated := None |}.

Definition broken_parser (f : Fault) : Script :=
  {| setup_fault := None; parse_fault := Some f; cancel_during := None;
     mesh := triangle; tessellated := None |}.

Definition cancelled_while (st : Stage) : Script :=
  {| setup_fault := None; parse_fault := None; cancel_during := Some st;
     mesh := triangle; tessellated := None |}.

(** The binary32 values 0 and 1. *)
Definition zero32 : spec_float := S754_zero false.
Definition one32 : spec_float := S754_finite false 8388608 (-23).

(** What a successful render of [triangle] returns. *)
Definition rendered_triangle (text : string) : OpenSCADRenderResult :=
  {| success := true;
     error_message := "";
     console_output := text;
     positions := [zero32; zero32; zero32; one32; zero32; zero32; zero32; one32; zero32];
     normals := [zero32; zero32; one32; zero32; zero32; one32; zero32; zero32; one32];
     indices := [0; 1; 2];
     vertex_count := 3;
     triangle_count := 1 |}.

(** The binary32 value -1. *)
Definition minus_one32 : spec_float := S754_finite true 8388608 (-23).

(** Three vertices followed by [extra] copies of (0,0,1); vertex 0 is used
    by no face, and the only face is (1, 2, 1431655765). *)
Definition mesh_of_size (extra : nat) : PolySet :=
  {| ps_vertices := [pt 0 0 0; pt 0 0 0; pt 1 0 0] ++ replicate extra (pt 0 0 1);
     ps_indices := [[1; 2; 1431655765]] |}.

(** A triangular mesh of 1431655766 vertices, the last of which,
    1431655765, is the third vertex of the face. *)
Definition huge_mesh : PolySet := mesh_of_size (Z.to_nat 1431655763).

(** The right triangle and a vertex that no face uses. *)
Definition spare : PolySet :=
  {| ps_vertices := [pt 0 0 0; pt 1 0 0; pt 0 1 0; pt 2 2 2];
     ps_indices := [[0; 1; 2]] |}.

(** The console text of a complete run of the scripted engine on a
    triangular mesh. *)
Definition full_text : string := "parsed;instantiated;evaluated;converted;".

(** A process state of the scripted engine. *)
Definition world (s : Script) (initialized cancelled : bool) (text : string)
    (setups : nat) : @World _ (scripted s) :=
  @Build_World _ (scripted s) initialized cancelled text setups.

(** A fresh process. *)
Definition boot (s : Script) : @World _ (scripted s) := world s false false "" 0.

End Toy.


(** ** The capture buffer and the result accessors *)

(** [EOF] of [std::char_traits<char>]. *)
Definition EOF : Z := -1.

(** [static_cast<char>(c)] for an [int]: the low eight bits. *)
Definition to_char (c : Z) : Ascii.ascii := Ascii.ascii_of_N (Z.to_N (c mod 256)).

(** [traits_type::to_int_type(ch)]: the character as an [unsigned char]. *)
Definition to_int_type (ch : Ascii.ascii) : Z := Z.of_N (Ascii.N_of_ascii ch).

(** [CaptureBuffer::overflow(c)]: the new [captured] and the returned
    value. *)
Definition overflow (captured : string) (c : Z) : string * Z :=
  if c =? EOF then (captured, c)
  else (String.append captured (String (to_char c) EmptyString), c).

(** What the stream does with [CaptureBuffer], which sets no put area:
    [std::streambuf::sputn] hands the characters to [overflow] one by one
    and stops when it answers [EOF]; it returns the number of characters
    taken. *)
Fixpoint sputn (text : string) (captured : string) : string * Z :=
  match text with
  | EmptyString => (captured, 0)
  | String ch rest =>
      let r := overflow captured (to_int_type ch) in
      if r.2 =? EOF then (r.1, 0)
      else let k := sputn rest r.1 in (k.1, k.2 + 1)
  end.

(** What a C caller reads from the [const char*] that [s.c_str()] returns:
    the characters before the first NUL. *)
Fixpoint c_str (s : string) : string :=
  match s with
  | EmptyString => EmptyString
  | String ch rest =>
      if Ascii.eqb ch Ascii.zero then EmptyString else String ch (c_str rest)
  end.

Section Accessors.
Context `{Numeric}.

(** [v.empty() ? nullptr : v.data()] *)
Definition data_or_null {A : Type} (v : list A) : option (list A) :=
  match v with
  | [] => None
  | _ => Some v
  end.

(** The accessors take a [const OpenSCADRenderResult*]; [None] is the null
    pointer, for the argument and for a returned array. *)
Definition openscad_result_success (result : option OpenSCADRenderResult) : bool :=
  match result with
  | Some r => success r
  | None => false
  end.

Definition openscad_result_error (result : option OpenSCADRenderResult) : string :=
  match result with
  | None => ""
  | Some r => c_str (error_message r)
  end.


Definition openscad_result_vertex_count (result : option OpenSCADRenderResult) : Z :=
  match result with
  | Some r => vertex_count r
  | None => 0
  end.

Definition openscad_result_triangle_count (result : option OpenSCADRenderResult) : Z :=
  match result with
  | Some r => triangle_count r
  | None => 0
  end.

Definition openscad_result_positions (result : option OpenSCADRenderResult)
  : option (list float) :=
  match result with
  | None => None
  | Some r => data_or_null (positions r)
  end.

Definition openscad_result_normals (result : option OpenSCADRenderResult)
  : option (list float) :=
  match result with
  | None => None
  | Some r => data_or_null (normals r)
  end.

Definition openscad_result_indices (result : option OpenSCADRenderResult)
  : option (list Z) :=
  match result with
  | None => None
  | Some r => data_or_null (indices r)
  end.

(** The faces that have a geometric normal. *)
Definition has_normal (vertices : list Vector3d) (face : list Z) : bool :=
  match face_normal vertices face with
  | Some _ => true
  | None => false
  end.

(** A mesh without the faces that have no geometric normal: the faces of
    fewer than three vertices, those naming a vertex that does not exist,
    and the degenerate ones. *)
Definition drop_flat_faces (ps : PolySet) : PolySet :=
  {| ps_vertices := ps_vertices ps;
     ps_indices := filter (fun face => has_normal (ps_vertices ps) face = true)
                          (ps_indices ps) |}.

End Accessors.

Section WrappedSlots.
Context `{Numeric}.

(** What the inner loop of [extractMeshData] does for the vertex index
    1431655765 once the normal array has more than 2^32 slots: the 32-bit
    slot of the x component is 4294967295, its own, but those of the y and
    z components wrap to 0 and 1, the x and y slots of vertex 0. *)
Definition wrapped_add (n : Vector3d) (accs : list Normal) : list Normal :=
  alter (on_component 1 (fun a => f_add a (to_float (vec_z n)))) 0%nat
    (alter (on_component 0 (fun a => f_add a (to_float (vec_y n)))) 0%nat
       (alter (on_component 0 (fun a => f_add a (to_float (vec_x n))))
              (Z.to_nat 1431655765) accs)).

End WrappedSlots.

(** The messages of the error exits of the [try] block. *)
Definition stage_errors : list string :=
  [ "Failed to parse OpenSCAD source";
    "Render cancelled";
    "Failed to instantiate module";
    "Failed to evaluate geometry";
    "Geometry produced no mesh data" ].

(** * Properties *)

(** ** Machine integers and vectors *)

Lemma u32_range z : 0 <= u32 z < 2 ^ 32.
Proof. apply Z.mod_pos_bound. lia. Qed.

Lemma u32_small z : 0 <= z < 2 ^ 32 -> u32 z = z.
Proof. apply Z.mod_small. Qed.

(** The 32-bit product [idx * 3 + k] never leaves the flat array of a
    vertex that exists, whether it wraps or not. *)
Lemma u32_slot_bound idx k n :
  0 <= idx < n -> 0 <= k <= 2 -> 0 <= u32 (u32 (idx * 3) + k) < 3 * n.
Proof.
  intros Hidx Hk. unfold u32.
  rewrite Zplus_mod_idemp_l.
  pose proof (Z.mod_pos_bound (idx * 3 + k) (2 ^ 32) ltac:(lia)).
  pose proof (Z.mod_le (idx * 3 + k) (2 ^ 32) ltac:(lia) ltac:(lia)).
  lia.
Qed.

Lemma usize_slot_bound i k n :
  0 <= i < n -> 0 <= k <= 2 -> 0 <= usize (usize (i * 3) + k) < 3 * n.
Proof.
  intros Hi Hk. unfold usize.
  rewrite Zplus_mod_idemp_l.
  pose proof (Z.mod_pos_bound (i * 3 + k) (2 ^ 64) ltac:(lia)).
  pose proof (Z.mod_le (i * 3 + k) (2 ^ 64) ltac:(lia) ltac:(lia)).
  lia.
Qed.

(** Without wrap-around the slot is the expected one. *)
Lemma u32_slot_exact idx k n :
  0 <= idx < n -> 3 * n <= 2 ^ 32 -> 0 <= k <= 2 ->
  u32 (u32 (idx * 3) + k) = idx * 3 + k.
Proof.
  intros Hidx Hn Hk. unfold u32.
  rewrite Zplus_mod_idemp_l. apply Z.mod_small. lia.
Qed.

Lemma usize_slot_exact i k n :
  0 <= i < n -> 3 * n <= 2 ^ 32 -> 0 <= k <= 2 ->
  usize (usize (i * 3) + k) = i * 3 + k.
Proof.
  intros Hi Hn Hk. unfold usize.
  rewrite Zplus_mod_idemp_l. apply Z.mod_small. lia.
Qed.

(** The smallest vertex index whose slots wrap. *)
Example u32_slot_wraps : u32 (u32 (1431655765 * 3) + 1) = 0.
Proof. reflexivity. Qed.

Section VectorFacts.
Context {A : Type}.
Implicit Types (v : list A) (i : Z).

Lemma vec_get_lookup v i : 0 <= i -> vec_get v i = v !! Z.to_nat i.
Proof. intros Hi. unfold vec_get. by rewrite bool_decide_eq_true_2. Qed.

Lemma vec_get_in_range v i :
  0 <= i < Z.of_nat (length v) -> is_Some (vec_get v i).
Proof.
  intros Hi. rewrite vec_get_lookup by lia.
  apply lookup_lt_is_Some. lia.
Qed.

Lemma vec_get_out_of_range v i : Z.of_nat (length v) <= i -> vec_get v i = None.
Proof.
  intros Hi. rewrite vec_get_lookup by lia.
  apply lookup_ge_None. lia.
Qed.

Lemma vec_set_in_range v i x :
  0 <= i < Z.of_nat (length v) -> vec_set v i x = Some (<[Z.to_nat i := x]> v).
Proof. intros Hi. unfold vec_set. by rewrite bool_decide_eq_true_2. Qed.

Lemma vec_set_length v i x v' : vec_set v i x = Some v' -> length v' = length v.
Proof.
  unfold vec_set. case_bool_decide; [|done].
  intros [= <-]. apply length_insert.
Qed.

Lemma for_each_invariant {S : Type} (P : S -> Prop) (Q : A -> Prop)
    (body : S -> A -> option S) (l : list A) (s : S) :
  (forall s a, P s -> Q a -> exists s', body s a = Some s' /\ P s') ->
  P s -> Forall Q l -> exists s', for_each body l s = Some s' /\ P s'.
Proof.
  intros Hbody. revert s. induction l as [|a l IH]; intros s Hs Hl.
  - exists s. done.
  - inversion_clear Hl as [|?? Ha Hl'].
    destruct (Hbody s a Hs Ha) as (s1 & Hs1 & HP1).
    destruct (IH s1 HP1 Hl') as (s2 & Hs2 & HP2).
    exists s2. simpl. rewrite Hs1. done.
Qed.

End VectorFacts.

(** ** Mesh extraction stays inside its arrays *)

Section ExtractionSafety.
Context `{Numeric}.

Lemma vec_add_safe (v : list float) i x :
  0 <= i < Z.of_nat (length v) ->
  exists v', vec_add v i x = Some v' /\ length v' = length v.
Proof.
  intros Hi. unfold vec_add.
  destruct (vec_get_in_range v i Hi) as [a ->]. simpl.
  rewrite vec_set_in_range by done.
  eexists. split; [done|]. apply length_insert.
Qed.

Lemma accumulate_safe normal (nrm : list float) idx n :
  0 <= idx < n -> 3 * n <= Z.of_nat (length nrm) ->
  exists nrm', accumulate normal nrm idx = Some nrm' /\ length nrm' = length nrm.
Proof.
  intros Hidx Hlen. unfold accumulate.
  pose proof (u32_slot_bound idx 0 n Hidx ltac:(lia)) as H0.
  pose proof (u32_slot_bound idx 1 n Hidx ltac:(lia)) as H1.
  pose proof (u32_slot_bound idx 2 n Hidx ltac:(lia)) as H2.
  destruct (vec_add_safe nrm (u32 (u32 (idx * 3) + 0)) (to_float (vec_x normal))
              ltac:(lia)) as (n1 & -> & L1).
  simpl.
  destruct (vec_add_safe n1 (u32 (u32 (idx * 3) + 1)) (to_float (vec_y normal))
              ltac:(lia)) as (n2 & -> & L2).
  simpl.
  destruct (vec_add_safe n2 (u32 (u32 (idx * 3) + 2)) (to_float (vec_z normal))
              ltac:(lia)) as (n3 & -> & L3).
  exists n3. split; [done|]. congruence.
Qed.

(** One face: its triangle is appended to the indices whatever happens to
    the normals, and the normals keep their length. *)
Lemma face_step_shape vertices (st : list Z * list float) face :
  3 * Z.of_nat (length vertices) <= Z.of_nat (length st.2) ->
  exists nrm',
    face_step vertices (Z.of_nat (length vertices)) st face
      = Some (st.1 ++ triangle_of face, nrm')
    /\ length nrm' = length st.2.
Proof.
  intros Hlen. destruct st as [ids nrm]. simpl in Hlen.
  destruct face as [|f0 [|f1 [|f2 rest]]]; simpl;
    try (exists nrm; by rewrite app_nil_r).
  pose proof (u32_range f0) as R0.
  pose proof (u32_range f1) as R1.
  pose proof (u32_range f2) as R2.
  destruct (u32 f0 <? _) eqn:E0; simpl; [|by exists nrm].
  destruct (u32 f1 <? _) eqn:E1; simpl; [|by exists nrm].
  destruct (u32 f2 <? _) eqn:E2; simpl; [|by exists nrm].
  apply Z.ltb_lt in E0, E1, E2.
  destruct (vec_get_in_range vertices (u32 f0) ltac:(lia)) as [v0 ->].
  destruct (vec_get_in_range vertices (u32 f1) ltac:(lia)) as [v1 ->].
  destruct (vec_get_in_range vertices (u32 f2) ltac:(lia)) as [v2 ->].
  simpl. destruct (d_gt0 _); [|by exists nrm].
  set (normal := vec_div _ _).
  destruct (accumulate_safe normal nrm (u32 f0) (Z.of_nat (length vertices))
              ltac:(lia) Hlen) as (n1 & -> & L1).
  simpl.
  destruct (accumulate_safe normal n1 (u32 f1) (Z.of_nat (length vertices))
              ltac:(lia) ltac:(lia)) as (n2 & -> & L2).
  simpl.
  destruct (accumulate_safe normal n2 (u32 f2) (Z.of_nat (length vertices))
              ltac:(lia) ltac:(lia)) as (n3 & -> & L3).
  simpl. exists n3. split; [done|]. congruence.
Qed.

Lemma faces_shape vertices faces (st : list Z * list float) :
  3 * Z.of_nat (length vertices) <= Z.of_nat (length st.2) ->
  exists nrm',
    for_each (face_step vertices (Z.of_nat (length vertices))) faces st
      = Some (st.1 ++ (faces ≫= triangle_of), nrm')
    /\ length nrm' = length st.2.
Proof.
  revert st. induction faces as [|face faces IH]; intros st Hlen.
  - exists st.2. simpl. rewrite app_nil_r. by destruct st.
  - destruct (face_step_shape vertices st face Hlen) as (n1 & E1 & L1).
    destruct (IH (st.1 ++ triangle_of face, n1)) as (n2 & E2 & L2).
    { simpl. lia. }
    exists n2. simpl in *. rewrite E1. simpl. rewrite E2.
    split; [|congruence]. by rewrite <- app_assoc.
Qed.

Lemma normalize_vertex_safe (nrm : list float) i n :
  0 <= i < n -> 3 * n <= Z.of_nat (length nrm) ->
  exists nrm', normalize_vertex nrm i = Some nrm' /\ length nrm' = length nrm.
Proof.
  intros Hi Hlen. unfold normalize_vertex.
  pose proof (usize_slot_bound i 0 n Hi ltac:(lia)) as H0.
  pose proof (usize_slot_bound i 1 n Hi ltac:(lia)) as H1.
  pose proof (usize_slot_bound i 2 n Hi ltac:(lia)) as H2.
  destruct (vec_get_in_range nrm (usize (usize (i * 3) + 0)) ltac:(lia)) as [nx ->].
  destruct (vec_get_in_range nrm (usize (usize (i * 3) + 1)) ltac:(lia)) as [ny ->].
  destruct (vec_get_in_range nrm (usize (usize (i * 3) + 2)) ltac:(lia)) as [nz ->].
  simpl.
  destruct (f_gt0 _).
  all: rewrite vec_set_in_range by lia; simpl.
  all: rewrite vec_set_in_range by (rewrite length_insert; lia); simpl.
  all: rewrite vec_set_in_range by (rewrite !length_insert; lia).
  all: eexists; split; [done|]; by rewrite !length_insert.
Qed.

Lemma normalize_all_safe (nrm : list float) (n : nat) :
  3 * Z.of_nat n <= Z.of_nat (length nrm) ->
  exists nrm', for_each normalize_vertex (upto n) nrm = Some nrm'
               /\ length nrm' = length nrm.
Proof.
  intros Hlen.
  destruct (for_each_invariant
              (fun s : list float => length s = length nrm)
              (fun i => 0 <= i < Z.of_nat n)
              normalize_vertex (upto n) nrm) as (s' & E & L); [| done | | by exists s'].
  - intros s a Hs Ha.
    destruct (normalize_vertex_safe s a (Z.of_nat n)) as (s' & E & L);
      [done | by rewrite Hs |].
    exists s'. split; [done|]. congruence.
  - unfold upto. apply Forall_fmap, Forall_forall. intros k Hk.
    apply elem_of_seq in Hk. simpl. lia.
Qed.

Lemma push_vertices vertices (pn : list float * list float) :
  fold_left push_vertex vertices pn
    = (pn.1 ++ (vertices ≫= coordinates),
       pn.2 ++ interleave (replicate (length vertices) zero_normal)).
Proof.
  revert pn. induction vertices as [|v vs IH]; intros [p n]; simpl.
  - by rewrite !app_nil_r.
  - rewrite IH. simpl. by rewrite <- !app_assoc.
Qed.

Lemma length_interleave (l : list Normal) : length (interleave l) = (3 * length l)%nat.
Proof.
  unfold interleave. induction l as [|a l IH]; [done|].
  rewrite bind_cons, length_app, IH. simpl. lia.
Qed.

(** [fill_mesh] always completes, and everything but the normals has a
    closed form. *)
Lemma fill_mesh_shape ps result :
  exists nrm,
    fill_mesh ps result
      = Some {| success := success result;
                error_message := error_message result;
                console_output := console_output result;
                positions := positions result ++ (ps_vertices ps ≫= coordinates);
                normals := nrm;
                indices := indices result ++ (ps_indices ps ≫= triangle_of);
                vertex_count := Z.of_nat (length (ps_vertices ps));
                triangle_count :=
                  Z.of_nat (length (indices result ++ (ps_indices ps ≫= triangle_of))) / 3 |}
    /\ length nrm = (length (normals result) + 3 * length (ps_vertices ps))%nat.
Proof.
  unfold fill_mesh. rewrite push_vertices. simpl.
  set (nrm0 := normals result ++ _).
  assert (length nrm0 = (length (normals result) + 3 * length (ps_vertices ps))%nat) as L0.
  { unfold nrm0. by rewrite length_app, length_interleave, length_replicate. }
  destruct (faces_shape (ps_vertices ps) (ps_indices ps) (indices result, nrm0))
    as (n1 & -> & L1); [simpl; lia|].
  simpl in *.
  destruct (normalize_all_safe n1 (length (ps_vertices ps))) as (n2 & -> & L2); [lia|].
  simpl. exists n2. split; [done|]. lia.
Qed.

End ExtractionSafety.

(** ** The flat arrays against the per-vertex specification *)

Section ExtractionRefinement.
Context `{Numeric}.

Lemma interleave_cons (n : Normal) l :
  interleave (n :: l) = n.1.1 :: n.1.2 :: n.2 :: interleave l.
Proof. done. Qed.

Lemma interleave_app (l1 l2 : list Normal) :
  interleave (l1 ++ l2) = interleave l1 ++ interleave l2.
Proof. apply bind_app. Qed.

Lemma slot_succ (i k : nat) : (3 * S i + k = S (S (S (3 * i + k))))%nat.
Proof. lia. Qed.

Lemma interleave_lookup (l : list Normal) (i k : nat) :
  (k < 3)%nat -> interleave l !! (3 * i + k)%nat = component k <$> l !! i.
Proof.
  intros Hk. revert i. induction l as [|n l IH]; intros i.
  - done.
  - rewrite interleave_cons. destruct i as [|i].
    + destruct k as [|[|[|k]]]; [done..|lia].
    + rewrite slot_succ. simpl. apply IH.
Qed.

Lemma interleave_alter (g : float -> float) (l : list Normal) (i k : nat) :
  (k < 3)%nat ->
  alter g (3 * i + k)%nat (interleave l) = interleave (alter (on_component k g) i l).
Proof.
  intros Hk. revert i. induction l as [|n l IH]; intros i.
  - by destruct i.
  - destruct i as [|i].
    + destruct k as [|[|[|k]]]; [done..|lia].
    + rewrite slot_succ.
      change (alter (on_component k g) (S i) (n :: l))
        with (n :: alter (on_component k g) i l).
      rewrite !interleave_cons. simpl. do 3 f_equal. apply IH.
Qed.

Lemma vec_add_alter (v : list float) i x :
  0 <= i < Z.of_nat (length v) ->
  vec_add v i x = Some (alter (fun a => f_add a x) (Z.to_nat i) v).
Proof.
  intros Hi. unfold vec_add.
  rewrite vec_get_lookup by lia.
  destruct (v !! Z.to_nat i) as [a|] eqn:E.
  - simpl. rewrite vec_set_in_range by done. f_equal.
    rewrite list_insert_alter. apply list_alter_ext; [|done].
    intros y Hy. congruence.
  - apply lookup_ge_None in E. lia.
Qed.

(** The inner loop adds the face normal to one accumulator. *)
Lemma accumulate_refines normal (accs : list Normal) (i : nat) :
  (i < length accs)%nat -> 3 * Z.of_nat (length accs) <= 2 ^ 32 ->
  accumulate normal (interleave accs) (Z.of_nat i)
    = Some (interleave (alter (add_normal normal) i accs)).
Proof.
  intros Hi Hsmall. unfold accumulate.
  rewrite !(u32_slot_exact (Z.of_nat i) _ (Z.of_nat (length accs))) by lia.
  rewrite vec_add_alter by (rewrite length_interleave; lia). simpl.
  rewrite vec_add_alter by (rewrite length_alter, length_interleave; lia). simpl.
  rewrite vec_add_alter by (rewrite !length_alter, length_interleave; lia).
  f_equal.
  replace (Z.to_nat (Z.of_nat i * 3 + 0)) with (3 * i + 0)%nat by lia.
  replace (Z.to_nat (Z.of_nat i * 3 + 1)) with (3 * i + 1)%nat by lia.
  replace (Z.to_nat (Z.of_nat i * 3 + 2)) with (3 * i + 2)%nat by lia.
  rewrite !interleave_alter by lia. f_equal.
  rewrite !list_alter_alter_eq.
  apply list_alter_ext; [|done]. by intros [[a b] c] _.
Qed.

Lemma bind_some_l {A B : Type} (x : A) (f : A -> option B) : Some x ≫= f = f x.
Proof. reflexivity. Qed.

(** Why the bound is there: in an array of more than 2^32 slots (a mesh of
    1431655766 vertices or more) the slots of vertex 1431655765 wrap, and
    the y and z components of a face normal land in slots 0 and 1, which
    belong to vertex 0. *)
Lemma accumulate_wraps normal (nrm : list float) :
  2 ^ 32 + 2 <= Z.of_nat (length nrm) ->
  exists nrm',
    accumulate normal nrm 1431655765 = Some nrm'
    /\ nrm' !! 0%nat = (fun a => f_add a (to_float (vec_y normal))) <$> nrm !! 0%nat
    /\ nrm' !! 1%nat = (fun a => f_add a (to_float (vec_z normal))) <$> nrm !! 1%nat.
Proof.
  intros Hlen. unfold accumulate.
  change (u32 (u32 (1431655765 * 3) + 0)) with 4294967295.
  change (u32 (u32 (1431655765 * 3) + 1)) with 0.
  change (u32 (u32 (1431655765 * 3) + 2)) with 1.
  remember (Z.to_nat 4294967295) as top eqn:Htop.
  assert (Z.of_nat top = 4294967295) as Htop' by (subst top; lia).
  rewrite vec_add_alter by lia. rewrite <- Htop. clear Htop.
  rewrite bind_some_l.
  rewrite vec_add_alter by (rewrite length_alter; lia).
  rewrite bind_some_l.
  rewrite vec_add_alter by (rewrite !length_alter; lia).
  change (Z.to_nat 0) with 0%nat. change (Z.to_nat 1) with 1%nat.
  eexists. split; [reflexivity|]. split.
  - rewrite list_lookup_alter_ne by lia.
    rewrite list_lookup_alter_eq.
    rewrite list_lookup_alter_ne by lia. reflexivity.
  - rewrite list_lookup_alter_eq.
    rewrite list_lookup_alter_ne by lia.
    rewrite list_lookup_alter_ne by lia. reflexivity.
Qed.

Lemma length_accumulate_face vertices (accs : list Normal) face :
  length (accumulate_face vertices accs face) = length accs.
Proof.
  unfold accumulate_face. destruct (face_normal vertices face) as [n|]; [|done].
  generalize (triangle_of face). intros t. revert accs.
  induction t as [|i t IH]; intros accs; simpl; [done|].
  by rewrite IH, length_alter.
Qed.

Lemma length_accumulate_faces vertices faces (accs : list Normal) :
  length (foldl (accumulate_face vertices) accs faces) = length accs.
Proof.
  revert accs. induction faces as [|face faces IH]; intros accs; simpl; [done|].
  by rewrite IH, length_accumulate_face.
Qed.

(** One face of the source loop against one face of the specification. *)
Lemma face_step_refines vertices ids (accs : list Normal) face :
  length accs = length vertices ->
  3 * Z.of_nat (length vertices) <= 2 ^ 32 ->
  face_step vertices (Z.of_nat (length vertices)) (ids, interleave accs) face
    = Some (ids ++ triangle_of face, interleave (accumulate_face vertices accs face)).
Proof.
  intros Hlen Hsmall. unfold accumulate_face, face_normal.
  destruct face as [|f0 [|f1 [|f2 rest]]]; simpl;
    try by rewrite app_nil_r.
  pose proof (u32_range f0) as R0.
  pose proof (u32_range f1) as R1.
  pose proof (u32_range f2) as R2.
  destruct (Z.ltb_spec (u32 f0) (Z.of_nat (length vertices))) as [E0|E0]; simpl;
    [|by rewrite (vec_get_out_of_range vertices (u32 f0))].
  destruct (vec_get_in_range vertices (u32 f0) ltac:(lia)) as [v0 ->]. simpl.
  destruct (Z.ltb_spec (u32 f1) (Z.of_nat (length vertices))) as [E1|E1]; simpl;
    [|by rewrite (vec_get_out_of_range vertices (u32 f1))].
  destruct (vec_get_in_range vertices (u32 f1) ltac:(lia)) as [v1 ->]. simpl.
  destruct (Z.ltb_spec (u32 f2) (Z.of_nat (length vertices))) as [E2|E2]; simpl;
    [|by rewrite (vec_get_out_of_range vertices (u32 f2))].
  destruct (vec_get_in_range vertices (u32 f2) ltac:(lia)) as [v2 ->]. simpl.
  destruct (d_gt0 _); [|done]. simpl.
  set (normal := vec_div _ _).
  rewrite <- (Z2Nat.id (u32 f0)) at 1 by lia.
  rewrite accumulate_refines by lia. simpl.
  rewrite <- (Z2Nat.id (u32 f1)) at 1 by lia.
  rewrite accumulate_refines by (rewrite ?length_alter; lia). simpl.
  rewrite <- (Z2Nat.id (u32 f2)) at 1 by lia.
  rewrite accumulate_refines by (rewrite ?length_alter; lia). done.
Qed.

Lemma faces_refine vertices faces ids (accs : list Normal) :
  length accs = length vertices ->
  3 * Z.of_nat (length vertices) <= 2 ^ 32 ->
  for_each (face_step vertices (Z.of_nat (length vertices))) faces (ids, interleave accs)
    = Some (ids ++ (faces ≫= triangle_of),
            interleave (foldl (accumulate_face vertices) accs faces)).
Proof.
  intros Hlen Hsmall. revert ids accs Hlen.
  induction faces as [|face faces IH]; intros ids accs Hlen; simpl.
  - by rewrite app_nil_r.
  - rewrite face_step_refines by done. simpl.
    rewrite IH by (by rewrite length_accumulate_face).
    by rewrite <- app_assoc.
Qed.

Lemma vec_set_alter (v : list float) i x :
  0 <= i < Z.of_nat (length v) ->
  vec_set v i x = Some (alter (fun _ => x) (Z.to_nat i) v).
Proof.
  intros Hi. rewrite vec_set_in_range by done. by rewrite list_insert_alter.
Qed.

(** The last loop finishes one accumulator. *)
Lemma normalize_vertex_refines (accs : list Normal) (i : nat) :
  (i < length accs)%nat -> 3 * Z.of_nat (length accs) <= 2 ^ 32 ->
  normalize_vertex (interleave accs) (Z.of_nat i)
    = Some (interleave (alter finish_normal i accs)).
Proof.
  intros Hi Hsmall. unfold normalize_vertex.
  rewrite !(usize_slot_exact (Z.of_nat i) _ (Z.of_nat (length accs))) by lia.
  rewrite !vec_get_lookup by lia.
  replace (Z.to_nat (Z.of_nat i * 3 + 0)) with (3 * i + 0)%nat by lia.
  replace (Z.to_nat (Z.of_nat i * 3 + 1)) with (3 * i + 1)%nat by lia.
  replace (Z.to_nat (Z.of_nat i * 3 + 2)) with (3 * i + 2)%nat by lia.
  rewrite !interleave_lookup by lia.
  destruct (lookup_lt_is_Some_2 accs i Hi) as [[[nx ny] nz] Hacc].
  rewrite Hacc. simpl.
  assert (finish_normal (nx, ny, nz) =
          if f_gt0 (f_sqrt (f_add (f_add (f_mul nx nx) (f_mul ny ny)) (f_mul nz nz)))
          then (f_div nx (f_sqrt (f_add (f_add (f_mul nx nx) (f_mul ny ny)) (f_mul nz nz))),
                f_div ny (f_sqrt (f_add (f_add (f_mul nx nx) (f_mul ny ny)) (f_mul nz nz))),
                f_div nz (f_sqrt (f_add (f_add (f_mul nx nx) (f_mul ny ny)) (f_mul nz nz))))
          else default_normal) as Hfin by done.
  destruct (f_gt0 _).
  all: rewrite vec_set_alter by (rewrite length_interleave; lia); simpl.
  all: rewrite vec_set_alter by (rewrite length_alter, length_interleave; lia); simpl.
  all: rewrite vec_set_alter by (rewrite !length_alter, length_interleave; lia).
  all: f_equal.
  all: replace (Z.to_nat (Z.of_nat i * 3 + 0)) with (3 * i + 0)%nat by lia.
  all: replace (Z.to_nat (Z.of_nat i * 3 + 1)) with (3 * i + 1)%nat by lia.
  all: replace (Z.to_nat (Z.of_nat i * 3 + 2)) with (3 * i + 2)%nat by lia.
  all: rewrite !interleave_alter by lia; f_equal.
  all: rewrite !list_alter_alter_eq.
  all: apply list_alter_ext; [|done].
  all: intros y Hy; rewrite Hacc in Hy; injection Hy as <-.
  all: by rewrite Hfin.
Qed.

Lemma normalize_from_refines (done_ todo : list Normal) :
  3 * Z.of_nat (length (done_ ++ todo)) <= 2 ^ 32 ->
  for_each normalize_vertex (Z.of_nat <$> seq (length done_) (length todo))
           (interleave (done_ ++ todo))
    = Some (interleave (done_ ++ (finish_normal <$> todo))).
Proof.
  revert done_. induction todo as [|acc todo IH]; intros done_ Hsmall; simpl.
  - done.
  - rewrite normalize_vertex_refines; [|rewrite length_app; simpl; lia|done].
    simpl.
    replace (length done_) with (length done_ + 0)%nat at 2 by lia.
    rewrite alter_app_r. simpl.
    rewrite (cons_middle (finish_normal acc)), app_assoc.
    replace (S (length done_)) with (length (done_ ++ [finish_normal acc]))
      by (rewrite length_app; simpl; lia).
    rewrite IH; [by rewrite <- app_assoc|].
    rewrite !length_app in *. simpl in *. lia.
Qed.

Lemma normalize_all_refines (accs : list Normal) :
  3 * Z.of_nat (length accs) <= 2 ^ 32 ->
  for_each normalize_vertex (upto (length accs)) (interleave accs)
    = Some (interleave (finish_normal <$> accs)).
Proof. intros Hsmall. by apply (normalize_from_refines [] accs). Qed.

(** The loops of [extractMeshData] compute the specified arrays, as long
    as no 32-bit slot index can wrap. *)
Lemma fill_mesh_refines ps :
  3 * Z.of_nat (length (ps_vertices ps)) <= 2 ^ 32 ->
  fill_mesh ps new_result
    = Some {| success := false;
              error_message := "";
              console_output := "";
              positions := ps_vertices ps ≫= coordinates;
              normals := interleave (vertex_normals ps);
              indices := ps_indices ps ≫= triangle_of;
              vertex_count := Z.of_nat (length (ps_vertices ps));
              triangle_count := Z.of_nat (length (ps_indices ps ≫= triangle_of)) / 3 |}.
Proof.
  intros Hsmall. unfold fill_mesh. rewrite push_vertices. simpl.
  rewrite faces_refine; [|by rewrite length_replicate|done]. simpl.
  set (accs := foldl _ _ _).
  assert (length accs = length (ps_vertices ps)) as Hlen.
  { unfold accs. by rewrite length_accumulate_faces, length_replicate. }
  rewrite <- Hlen. rewrite normalize_all_refines by lia. done.
Qed.

End ExtractionRefinement.

(** ** [extractMeshData] *)

Section ExtractMeshData.
Context `{Engine}.

Lemma call_defined {A : Type} (stage : EngineState -> Effect EngineState A) w :
  (call stage w).1 <> Undefined.
Proof. unfold call. simpl. by destruct (eff_value _). Qed.

Lemma choose_mesh_defined polyset w : (choose_mesh polyset w).1 <> Undefined.
Proof.
  unfold choose_mesh. destruct (negb _); [|done].
  unfold bind. pose proof (call_defined (tessellate_faces polyset) w) as Hc.
  destruct (call _ w) as [[t|f|] w1]; done.
Qed.

Lemma extractMeshData_run polyset result w ps w' :
  choose_mesh polyset w = (Ok ps, w') ->
  extractMeshData polyset result w = lift (fill_mesh ps result) w'.
Proof. intros E. unfold extractMeshData, bind. by rewrite E. Qed.

Lemma extractMeshData_ok polyset result w r w' :
  extractMeshData polyset result w = (Ok r, w') ->
  exists ps, choose_mesh polyset w = (Ok ps, w') /\ fill_mesh ps result = Some r.
Proof.
  unfold extractMeshData, bind, lift.
  destruct (choose_mesh polyset w) as [[ps|f|] w1]; [|done..].
  destruct (fill_mesh ps result) as [r'|] eqn:E; [|done].
  intros [= <- <-]. by exists ps.
Qed.

Lemma short_faces_ignored vertices n faces (st : list Z * list float) :
  for_each (face_step vertices n) faces st
    = for_each (face_step vertices n)
               (filter (fun face => (3 <= length face)%nat) faces) st.
Proof.
  revert st. induction faces as [|face faces IH]; intros st; [done|].
  rewrite filter_cons. case_decide as Hlen.
  - simpl. destruct (face_step vertices n st face); [apply IH|done].
  - simpl. destruct face as [|f0 [|f1 [|f2 rest]]]; simpl in *; try apply IH. lia.
Qed.

Lemma triangles_drop_short faces :
  filter (fun face => (3 <= length face)%nat) faces ≫= triangle_of
    = faces ≫= triangle_of.
Proof.
  induction faces as [|face faces IH]; [done|].
  rewrite filter_cons. case_decide as Hlen.
  - by rewrite !bind_cons, IH.
  - rewrite bind_cons, IH.
    destruct face as [|f0 [|f1 [|f2 rest]]]; simpl in *; try done. lia.
Qed.

Lemma length_triangles faces :
  length (faces ≫= triangle_of)
    = (3 * length (filter (fun face => (3 <= length face)%nat) faces))%nat.
Proof.
  induction faces as [|face faces IH]; [done|].
  rewrite filter_cons, bind_cons, length_app, IH. case_decide as Hlen.
  - destruct face as [|f0 [|f1 [|f2 rest]]]; simpl in *; lia.
  - destruct face as [|f0 [|f1 [|f2 rest]]]; simpl in *; lia.
Qed.

Lemma fill_mesh_drop_short ps result :
  fill_mesh (drop_short_faces ps) result = fill_mesh ps result.
Proof.
  unfold fill_mesh, drop_short_faces. simpl.
  by rewrite <- short_faces_ignored.
Qed.

(** C6: every face of fewer than three vertices is skipped without an
    error and leaves no trace in the result (extraction gives the same
    result as on the mesh without those faces); every other face
    contributes exactly its first three vertex indices, in order, as
    [uint32_t] values, and nothing else: the index array is the
    concatenation of these triples in face order, three entries per such
    face, so nothing is re-triangulated.  Extraction returns whenever the
    choice of the mesh does. *)
Theorem extract_first_three_indices polyset w ps w' :
  choose_mesh polyset w = (Ok ps, w') ->
  exists r,
    extractMeshData polyset new_result w = (Ok r, w')
    /\ indices r = ps_indices ps ≫= triangle_of
    /\ triangle_count r
       = Z.of_nat (length (filter (fun face => (3 <= length face)%nat) (ps_indices ps)))
    /\ fill_mesh (drop_short_faces ps) new_result = Some r
    /\ (forall face, (length face < 3)%nat -> triangle_of face = [])
    /\ (forall f0 f1 f2 rest,
          0 <= f0 < 2 ^ 32 -> 0 <= f1 < 2 ^ 32 -> 0 <= f2 < 2 ^ 32 ->
          triangle_of (f0 :: f1 :: f2 :: rest) = [f0; f1; f2]).
Proof.
  intros Hps. rewrite (extractMeshData_run _ _ _ _ _ Hps). unfold lift.
  destruct (fill_mesh_shape ps new_result) as (nrm & E & _).
  rewrite E. eexists. split; [done|]. simpl.
  split; [done|]. split.
  { rewrite length_triangles, Nat2Z.inj_mul. simpl Z.of_nat.
    by rewrite Z.mul_comm, Z.div_mul. }
  split.
  { rewrite fill_mesh_drop_short. exact E. }
  split.
  - intros [|f0 [|f1 [|f2 rest]]] Hlen; simpl in *; try done. lia.
  - intros f0 f1 f2 rest B0 B1 B2. simpl. by rewrite !u32_small.
Qed.

Lemma triangle_of_range face : Forall (fun i => 0 <= i < 2 ^ 32) (triangle_of face).
Proof.
  destruct face as [|f0 [|f1 [|f2 rest]]]; simpl; try done.
  repeat constructor; apply u32_range.
Qed.

(** C1, as amended: when every triangle of the mesh the loops run on
    names existing vertices only, every element of the index array is a
    valid vertex index, below [vertex_count].  (Extraction never checks or
    filters the indices it emits.) *)
Theorem extract_indices_in_range polyset w ps w' :
  choose_mesh polyset w = (Ok ps, w') ->
  well_indexed ps ->
  exists r,
    extractMeshData polyset new_result w = (Ok r, w')
    /\ Forall (fun i => 0 <= i < vertex_count r) (indices r).
Proof.
  intros Hps Hwf. rewrite (extractMeshData_run _ _ _ _ _ Hps). unfold lift.
  destruct (fill_mesh_shape ps new_result) as (nrm & -> & _).
  eexists. split; [done|]. simpl.
  apply Forall_bind. unfold well_indexed in Hwf.
  eapply Forall_impl; [exact Hwf|]. intros face Hface. simpl in Hface.
  pose proof (triangle_of_range face) as Hrange.
  apply Forall_forall. intros i Hi.
  rewrite Forall_forall in Hface, Hrange.
  specialize (Hface i Hi). specialize (Hrange i Hi). lia.
Qed.

(** X16: for a mesh small enough that no 32-bit slot index [idx * 3 + k]
    wraps (at most 1431655765 vertices), the normal array is the
    specified one, [vertex_normals]: the normal of a face is the
    normalised cross product of [v1 - v0] and [v2 - v0]; a face whose
    cross product has no positive length adds nothing, yet its three
    indices are in the index array; any other face adds its normal,
    unweighted, to the accumulator of each of its three vertices; at the
    end every accumulator is normalised, and one without positive length
    becomes (0,0,1). *)
Theorem extract_vertex_normals polyset w ps w' :
  choose_mesh polyset w = (Ok ps, w') ->
  3 * Z.of_nat (length (ps_vertices ps)) <= 2 ^ 32 ->
  exists r,
    extractMeshData polyset new_result w = (Ok r, w')
    /\ normals r = interleave (vertex_normals ps)
    /\ indices r = ps_indices ps ≫= triangle_of.
Proof.
  intros Hps Hsmall. rewrite (extractMeshData_run _ _ _ _ _ Hps). unfold lift.
  rewrite fill_mesh_refines by done.
  eexists. split; [done|]. done.
Qed.

Lemma extractMeshData_defined polyset result w :
  (extractMeshData polyset result w).1 <> Undefined.
Proof.
  unfold extractMeshData, bind.
  pose proof (choose_mesh_defined polyset w) as Hc.
  destruct (choose_mesh polyset w) as [[ps|f|] w1]; [|done..].
  unfold lift. destruct (fill_mesh_shape ps result) as (nrm & -> & _). done.
Qed.

(** C10: mesh extraction never leaves the bounds of the vertex and normal
    arrays, whatever the faces contain and whatever result it is given
    to fill; and a face with an index that is not below the vertex count
    leaves the whole normal array as it was, while its three indices are
    appended to the index array. *)
Theorem extract_in_bounds :
  (forall polyset result w, (extractMeshData polyset result w).1 <> Undefined)
  /\ (forall vertices (st : list Z * list float) f0 f1 f2 rest,
        ~ (u32 f0 < Z.of_nat (length vertices)
           /\ u32 f1 < Z.of_nat (length vertices)
           /\ u32 f2 < Z.of_nat (length vertices)) ->
        face_step vertices (Z.of_nat (length vertices)) st (f0 :: f1 :: f2 :: rest)
          = Some (st.1 ++ [u32 f0; u32 f1; u32 f2], st.2)).
Proof.
  split.
  - apply extractMeshData_defined.
  - intros vertices st f0 f1 f2 rest Hout. simpl.
    destruct (Z.ltb_spec (u32 f0) (Z.of_nat (length vertices))); simpl; [|done].
    destruct (Z.ltb_spec (u32 f1) (Z.of_nat (length vertices))); simpl; [|done].
    destruct (Z.ltb_spec (u32 f2) (Z.of_nat (length vertices))); simpl; [|done].
    lia.
Qed.

End ExtractMeshData.

(** ** Initialisation, cancellation and the render pipeline *)

Section RenderFacts.
Context `{Engine}.

Lemma openscad_init_initialized w :
  g_initialized w = true -> openscad_init w = (Ok 0, w).
Proof.
  intros Hi. destruct w as [i c t e]. simpl in Hi. subst i.
  unfold openscad_init, bind, exchange_initialized, ret. reflexivity.
Qed.

Lemma openscad_init_cases w :
  exists rc w',
    openscad_init w = (Ok rc, w')
    /\ (rc = 0 /\ g_initialized w' = true \/ rc = -1 /\ g_initialized w' = false).
Proof.
  unfold openscad_init, bind, exchange_initialized, try_catch, call_uncaptured,
    set_initialized, ret.
  destruct (g_initialized w) eqn:Hi; simpl.
  - eexists. eexists. split; [reflexivity|]. left. by simpl.
  - destruct (engine_setup (engine w)) as [[v|f] e t c]; simpl.
    + eexists. eexists. split; [reflexivity|]. left. by simpl.
    + eexists. eexists. split; [reflexivity|]. right. by simpl.
Qed.

Lemma render_prologue_cases w :
  exists ready w',
    render_prologue w = (Ok ready, w')
    /\ g_initialized w' = ready /\ captured w' = captured w.
Proof.
  unfold render_prologue, bind, set_cancelled, get_initialized, ret. simpl.
  destruct (g_initialized w) eqn:Hi; simpl.
  - eexists. eexists. split; [reflexivity|]. by simpl.
  - unfold openscad_init, bind, exchange_initialized, try_catch, call_uncaptured,
      set_initialized, ret. simpl.
    destruct (engine_setup (engine w)) as [[v|f] e t c]; simpl.
    + eexists. eexists. split; [reflexivity|]. by simpl.
    + eexists. eexists. split; [reflexivity|]. by simpl.
Qed.

(** The head of [openscad_render] overwrites the cancellation flag. *)
Lemma render_prologue_forgets_cancel w :
  render_prologue (openscad_cancel w).2 = render_prologue w.
Proof. done. Qed.

(** [openscad_render] once the engine is ready. *)
Lemma openscad_render_ready src fonts w w0 :
  render_prologue w = (Ok true, w0) ->
  openscad_render src fonts w
    = try_catch (render_try src new_result)
        (fun f => bind get_captured
                    (fun text => ret (set_failure new_result (fault_message f) text)))
        (install_capture w0).2.
Proof. intros Hp. unfold openscad_render, bind. rewrite Hp. done. Qed.

Lemma openscad_render_not_ready src fonts w w0 :
  render_prologue w = (Ok false, w0) ->
  openscad_render src fonts w
    = (Ok (failure "Failed to initialize OpenSCAD engine" ""), w0).
Proof. intros Hp. unfold openscad_render, bind. rewrite Hp. done. Qed.

(** A normal return of the [try] block is an error exit or a success. *)
Lemma render_try_returns src w r w' :
  render_try src new_result w = (Ok r, w') ->
  (exists msg, msg <> "" /\ r = failure msg (captured w'))
  \/ (success r = true /\ console_output r = captured w').
Proof.
  unfold render_try, fail_with, bind, call, get_cancelled, get_captured, ret.
  intros Hr.
  repeat (case_match; simplify_eq/=; try discriminate);
    try (left; eexists; split; [|reflexivity]; discriminate).
  all: right; done.
Qed.

Lemma render_try_defined src result w : (render_try src result w).1 <> Undefined.
Proof.
  unfold render_try, fail_with, bind, call, get_cancelled, get_captured, ret.
  repeat (case_match; simplify_eq/=; try discriminate); try done.
  all: match goal with
       | E : extractMeshData ?p ?r ?w = (Undefined, _) |- _ =>
           pose proof (extractMeshData_defined p r w) as Hd; by rewrite E in Hd
       end.
Qed.

(** The three checkpoints of the [try] block. *)
Lemma cancelled_after_parse src result w sf w1 :
  call (parse src) w = (Ok (true, Some sf), w1) ->
  g_cancelled w1 = true ->
  render_try src result w
    = (Ok (set_failure result "Render cancelled" (captured w1)), w1).
Proof.
  intros Hparse Hc. unfold render_try, bind. rewrite Hparse.
  unfold get_cancelled. rewrite Hc. done.
Qed.

Lemma cancelled_after_instantiate src result w sf w1 root w2 :
  call (parse src) w = (Ok (true, Some sf), w1) ->
  g_cancelled w1 = false ->
  call (instantiate sf) w1 = (Ok (Some root), w2) ->
  g_cancelled w2 = true ->
  render_try src result w
    = (Ok (set_failure result "Render cancelled" (captured w2)), w2).
Proof.
  intros Hparse Hc1 Hinst Hc2. unfold render_try, bind. rewrite Hparse.
  unfold get_cancelled. rewrite Hc1, Hinst, Hc2. done.
Qed.

Lemma cancelled_after_evaluate src result w sf w1 root w2 geom w3 :
  call (parse src) w = (Ok (true, Some sf), w1) ->
  g_cancelled w1 = false ->
  call (instantiate sf) w1 = (Ok (Some root), w2) ->
  g_cancelled w2 = false ->
  call (evaluateGeometry root) w2 = (Ok (Some geom), w3) ->
  g_cancelled w3 = true ->
  render_try src result w
    = (Ok (set_failure result "Render cancelled" (captured w3)), w3).
Proof.
  intros Hparse Hc1 Hinst Hc2 Heval Hc3. unfold render_try, bind. rewrite Hparse.
  unfold get_cancelled. rewrite Hc1, Hinst, Hc2, Heval, Hc3. done.
Qed.

Lemma openscad_render_returns src fonts w w0 r w1 :
  render_prologue w = (Ok true, w0) ->
  render_try src new_result (install_capture w0).2 = (Ok r, w1) ->
  openscad_render src fonts w = (Ok r, w1).
Proof.
  intros Hp Hr. rewrite (openscad_render_ready _ _ _ _ Hp).
  unfold try_catch. by rewrite Hr.
Qed.

Lemma openscad_render_catches src fonts w w0 f w1 :
  render_prologue w = (Ok true, w0) ->
  render_try src new_result (install_capture w0).2 = (Throw f, w1) ->
  openscad_render src fonts w = (Ok (failure (fault_message f) (captured w1)), w1).
Proof.
  intros Hp Hr. rewrite (openscad_render_ready _ _ _ _ Hp).
  unfold try_catch. by rewrite Hr.
Qed.

(** C2, as amended: a cancellation requested before a render starts is
    discarded, because [openscad_render] resets the flag on entry: the
    render runs exactly as if no cancellation had been requested.  Only a
    request that arrives after that reset counts; one that has arrived by
    the time parsing returns fails the render with "Render cancelled" and
    no mesh data at the first checkpoint after parsing. *)
Theorem cancel_before_render_is_reset :
  (forall src fonts w,
      openscad_render src fonts (openscad_cancel w).2 = openscad_render src fonts w)
  /\ (forall src fonts w w0 sf w1,
        render_prologue w = (Ok true, w0) ->
        call (parse src) (install_capture w0).2 = (Ok (true, Some sf), w1) ->
        g_cancelled w1 = true ->
        openscad_render src fonts w
          = (Ok (failure "Render cancelled" (captured w1)), w1)).
Proof.
  split.
  - intros src fonts w. unfold openscad_render, bind.
    by rewrite render_prologue_forgets_cancel.
  - intros src fonts w w0 sf w1 Hp Hparse Hc.
    apply (openscad_render_returns _ _ _ _ _ _ Hp).
    by apply (cancelled_after_parse _ _ _ sf).
Qed.

(** C3, as amended: the pipeline polls the cancellation flag at three
    points, after parsing (before instantiating), after instantiating
    (before evaluating) and after evaluating (before the conversion to a
    polygon mesh); when the flag is set at one of them the render fails
    at once with "Render cancelled", an empty mesh, and the console text
    captured so far.  There is no poll between the conversion and the
    extraction. *)
Theorem render_cancel_checkpoints src fonts w w0 sf w1 :
  render_prologue w = (Ok true, w0) ->
  call (parse src) (install_capture w0).2 = (Ok (true, Some sf), w1) ->
  (g_cancelled w1 = true ->
   openscad_render src fonts w = (Ok (failure "Render cancelled" (captured w1)), w1))
  /\ (forall root w2,
        g_cancelled w1 = false ->
        call (instantiate sf) w1 = (Ok (Some root), w2) ->
        (g_cancelled w2 = true ->
         openscad_render src fonts w
           = (Ok (failure "Render cancelled" (captured w2)), w2))
        /\ (forall geom w3,
              g_cancelled w2 = false ->
              call (evaluateGeometry root) w2 = (Ok (Some geom), w3) ->
              g_cancelled w3 = true ->
              openscad_render src fonts w
                = (Ok (failure "Render cancelled" (captured w3)), w3))).
Proof.
  intros Hp Hparse. split; [|intros root w2 Hc1 Hinst; split].
  - intros Hc1. apply (openscad_render_returns _ _ _ _ _ _ Hp).
    by apply (cancelled_after_parse _ _ _ sf).
  - intros Hc2. apply (openscad_render_returns _ _ _ _ _ _ Hp).
    by apply (cancelled_after_instantiate _ _ _ sf w1 root).
  - intros geom w3 Hc2 Heval Hc3. apply (openscad_render_returns _ _ _ _ _ _ Hp).
    by apply (cancelled_after_evaluate _ _ _ sf w1 root w2 geom).
Qed.

(** C4: whenever [openscad_render] returns a result with
    [success = false], on any path, the three arrays are empty, both
    counts are zero and the error message is not empty. *)
Theorem failed_render_is_empty src fonts w r w' :
  openscad_render src fonts w = (Ok r, w') ->
  success r = false ->
  positions r = [] /\ normals r = [] /\ indices r = []
  /\ vertex_count r = 0 /\ triangle_count r = 0
  /\ error_message r <> "".
Proof.
  intros Hr Hfail.
  destruct (render_prologue_cases w) as (ready & w0 & Hp & _).
  destruct ready.
  - rewrite (openscad_render_ready _ _ _ _ Hp) in Hr. unfold try_catch in Hr.
    destruct (render_try src new_result (install_capture w0).2)
      as [[r1|f|] w1] eqn:Htry.
    + injection Hr as -> ->.
      destruct (render_try_returns _ _ _ _ Htry) as [(msg & Hmsg & ->)|[Hs _]].
      * by repeat split.
      * congruence.
    + injection Hr as <- <-. repeat split; try done.
      destruct f; discriminate.
    + discriminate.
  - rewrite (openscad_render_not_ready _ _ _ _ Hp) in Hr.
    injection Hr as <- <-. by repeat split.
Qed.

(** C7: [openscad_render] always returns a result, it never throws; and
    a fault that escapes the [try] block becomes a failed result whose
    message is "Exception: " followed by [what()] for a [std::exception]
    and "Unknown exception during render" for anything else, with the
    console text captured up to the fault attached. *)
Theorem render_converts_faults :
  (forall src fonts w, exists r w', openscad_render src fonts w = (Ok r, w'))
  /\ (forall src fonts w w0 f w1,
        render_prologue w = (Ok true, w0) ->
        render_try src new_result (install_capture w0).2 = (Throw f, w1) ->
        openscad_render src fonts w
          = (Ok {| success := false;
                   error_message := fault_message f;
                   console_output := captured w1;
                   positions := []; normals := []; indices := [];
                   vertex_count := 0; triangle_count := 0 |}, w1))
  /\ (forall what, fault_message (StdException what) = String.append "Exception: " what)
  /\ fault_message OtherFault = "Unknown exception during render".
Proof.
  split; [|split; [|done]].
  - intros src fonts w.
    destruct (render_prologue_cases w) as (ready & w0 & Hp & _).
    destruct ready.
    + rewrite (openscad_render_ready _ _ _ _ Hp). unfold try_catch.
      pose proof (render_try_defined src new_result (install_capture w0).2) as Hd.
      destruct (render_try src new_result (install_capture w0).2) as [[r1|f|] w1].
      * by exists r1, w1.
      * eexists. eexists. reflexivity.
      * done.
    + rewrite (openscad_render_not_ready _ _ _ _ Hp). by eexists; eexists.
  - intros src fonts w w0 f w1 Hp Htry.
    by rewrite (openscad_render_catches _ _ _ _ _ _ Hp Htry).
Qed.

(** C8, as amended: once [openscad_init] has returned 0, a further call
    returns 0 and leaves the whole process state as it was, so it runs no
    setup, and the initialized flag is true.  (After a call that returned
    -1 the flag is false and the next call runs the setup again.) *)
Theorem init_idempotent_after_success w w1 :
  openscad_init w = (Ok 0, w1) ->
  openscad_init w1 = (Ok 0, w1) /\ g_initialized w1 = true.
Proof.
  intros Hinit.
  destruct (openscad_init_cases w) as (rc & w' & E & [[-> Hi]|[-> Hi]]).
  - rewrite E in Hinit. injection Hinit as <-.
    split; [|done]. by apply openscad_init_initialized.
  - rewrite E in Hinit. discriminate.
Qed.

(** C9: the [fonts_path] argument is never used: two calls that differ
    in it only give the same result (and leave the same state). *)
Theorem render_ignores_fonts_path src fonts1 fonts2 w :
  openscad_render src fonts1 w = openscad_render src fonts2 w.
Proof. reflexivity. Qed.

End RenderFacts.

(** *** Concrete runs of the extractor *)

Import IEEE Toy.

(** The three vertices of the right triangle get the normal (0,0,1). *)
Example triangle_normals :
  fill_mesh triangle new_result
    = Some {| success := false; error_message := ""; console_output := "";
              positions := positions (rendered_triangle "");
              normals := normals (rendered_triangle "");
              indices := [0; 1; 2];
              vertex_count := 3; triangle_count := 1 |}.
Proof. reflexivity. Qed.

(** A degenerate triangle and a two-vertex face leave the normals of the
    other faces' vertices alone: vertex 0 of [sheet] keeps (0,0,1). *)
Example sheet_first_normal :
  take 3 (interleave (vertex_normals sheet)) = [zero32; zero32; one32].
Proof. reflexivity. Qed.

(** C6 on a mesh with a two-vertex face. *)
Lemma extract_first_three_indices_witness :
  @choose_mesh _ (scripted (plain sheet)) sheet (boot _)
    = (Ok sheet, world (plain sheet) false false "tessellated;" 0)
  /\ exists r,
       @extractMeshData _ (scripted (plain sheet)) sheet new_result (boot _)
         = (Ok r, world (plain sheet) false false "tessellated;" 0)
       /\ indices r = [0; 1; 2; 1; 3; 2; 0; 0; 1]
       /\ triangle_count r = 3.
Proof.
  assert (@choose_mesh _ (scripted (plain sheet)) sheet (boot _)
          = (Ok sheet, world (plain sheet) false false "tessellated;" 0)) as Hps
    by reflexivity.
  split; [exact Hps|].
  destruct (extract_first_three_indices _ _ _ _ Hps) as (r & E & Hi & Ht & _).
  exists r. split; [exact E|]. split; [exact Hi|exact Ht].
Defined.

(** C1 as stated fails: the face (0, 1, 7) of a three-vertex mesh puts 7
    into the index array. *)
Lemma extract_dangling_index :
  exists r w',
    @extractMeshData _ (scripted (plain dangling)) dangling new_result (boot _) = (Ok r, w')
    /\ vertex_count r = 3
    /\ indices r = [0; 1; 7]
    /\ ~ Forall (fun i => i < vertex_count r) (indices r).
Proof.
  eexists. eexists. split; [reflexivity|].
  split; [reflexivity|]. split; [reflexivity|].
  change (~ Forall (fun i => i < 3) [0; 1; 7]).
  rewrite !Forall_cons. lia.
Qed.

Lemma extract_indices_in_range_witness :
  @choose_mesh _ (scripted (plain triangle)) triangle (boot _) = (Ok triangle, boot _)
  /\ well_indexed triangle
  /\ exists r,
       @extractMeshData _ (scripted (plain triangle)) triangle new_result (boot _)
         = (Ok r, boot _)
       /\ Forall (fun i => 0 <= i < vertex_count r) (indices r).
Proof.
  assert (@choose_mesh _ (scripted (plain triangle)) triangle (boot _)
          = (Ok triangle, boot _)) as Hps by reflexivity.
  assert (well_indexed triangle) as Hwf.
  { unfold well_indexed. simpl. repeat constructor. }
  split; [exact Hps|]. split; [exact Hwf|].
  exact (extract_indices_in_range _ _ _ _ Hps Hwf).
Defined.

Lemma extract_vertex_normals_witness :
  @choose_mesh _ (scripted (plain sheet)) sheet (boot _)
    = (Ok sheet, world (plain sheet) false false "tessellated;" 0)
  /\ 3 * Z.of_nat (length (ps_vertices sheet)) <= 2 ^ 32
  /\ exists r,
       @extractMeshData _ (scripted (plain sheet)) sheet new_result (boot _)
         = (Ok r, world (plain sheet) false false "tessellated;" 0)
       /\ normals r = interleave (vertex_normals sheet)
       /\ indices r = ps_indices sheet ≫= triangle_of.
Proof.
  assert (@choose_mesh _ (scripted (plain sheet)) sheet (boot _)
          = (Ok sheet, world (plain sheet) false false "tessellated;" 0)) as Hps
    by reflexivity.
  assert (3 * Z.of_nat (length (ps_vertices sheet)) <= 2 ^ 32) as Hsmall
    by (simpl; lia).
  split; [exact Hps|]. split; [exact Hsmall|].
  exact (extract_vertex_normals _ _ _ _ Hps Hsmall).
Defined.

Lemma extract_in_bounds_witness :
  ~ (u32 0 < 3 /\ u32 1 < 3 /\ u32 7 < 3)
  /\ face_step (ps_vertices dangling) 3 ([], interleave (replicate 3 zero_normal)) [0; 1; 7]
     = Some ([0; 1; 7], interleave (replicate 3 zero_normal)).
Proof.
  assert (~ (u32 0 < Z.of_nat (length (ps_vertices dangling))
             /\ u32 1 < Z.of_nat (length (ps_vertices dangling))
             /\ u32 7 < Z.of_nat (length (ps_vertices dangling)))) as Hout
    by (rewrite !u32_small by lia; simpl; lia).
  split; [exact Hout|].
  exact (proj2 (@extract_in_bounds _ (scripted (plain dangling)))
               (ps_vertices dangling) ([], interleave (replicate 3 zero_normal))
               0 1 7 [] Hout).
Defined.

(** *** Concrete runs of the bridge *)

(** C2 as stated fails: cancellation is requested, then a render of a
    triangle is started; the render succeeds. *)
Lemma cancel_before_render_ignored :
  g_cancelled (openscad_cancel (boot (plain triangle))).2 = true
  /\ openscad_render "cube();" None (openscad_cancel (boot (plain triangle))).2
     = (Ok (rendered_triangle "parsed;instantiated;evaluated;converted;"),
        world (plain triangle) true false "parsed;instantiated;evaluated;converted;" 1)
  /\ success (rendered_triangle "parsed;instantiated;evaluated;converted;") = true.
Proof. split; [reflexivity|]. split; reflexivity. Qed.

Lemma cancel_before_render_is_reset_witness :
  render_prologue (boot (cancelled_while Parsing))
    = (Ok true, world (cancelled_while Parsing) true false "" 1)
  /\ call (parse "cube();")
          (install_capture (world (cancelled_while Parsing) true false "" 1)).2
     = (Ok (true, Some "cube();"), world (cancelled_while Parsing) true true "parsed;" 1)
  /\ g_cancelled (world (cancelled_while Parsing) true true "parsed;" 1) = true
  /\ openscad_render "cube();" None (boot (cancelled_while Parsing))
     = (Ok (failure "Render cancelled" "parsed;"),
        world (cancelled_while Parsing) true true "parsed;" 1).
Proof.
  split; [reflexivity|]. split; [reflexivity|]. split; [reflexivity|].
  exact (proj2 (@cancel_before_render_is_reset _ (scripted (cancelled_while Parsing)))
           "cube();" None (boot (cancelled_while Parsing))
           (world (cancelled_while Parsing) true false "" 1) "cube();"
           (world (cancelled_while Parsing) true true "parsed;" 1)
           eq_refl eq_refl eq_refl).
Defined.

(** C3 as stated fails: a cancellation that arrives during the conversion
    to a polygon mesh is pending when extraction starts, and the render
    succeeds all the same. *)
Lemma cancel_before_extraction_unpolled :
  g_cancelled
    (call (@getGeometryAsPolySet _ (scripted (cancelled_while Converting)) tt)
          (world (cancelled_while Converting) true false
                 "parsed;instantiated;evaluated;" 1)).2 = true
  /\ openscad_render "cube();" None (boot (cancelled_while Converting))
     = (Ok (rendered_triangle "parsed;instantiated;evaluated;converted;"),
        world (cancelled_while Converting) true true
              "parsed;instantiated;evaluated;converted;" 1)
  /\ success (rendered_triangle "parsed;instantiated;evaluated;converted;") = true.
Proof. split; [reflexivity|]. split; reflexivity. Qed.

Lemma render_cancel_checkpoints_witness :
  (render_prologue (boot (cancelled_while Parsing))
     = (Ok true, world (cancelled_while Parsing) true false "" 1)
   /\ call (parse "cube();")
           (install_capture (world (cancelled_while Parsing) true false "" 1)).2
      = (Ok (true, Some "cube();"),
         world (cancelled_while Parsing) true true "parsed;" 1)
   /\ openscad_render "cube();" None (boot (cancelled_while Parsing))
      = (Ok (failure "Render cancelled" "parsed;"),
         world (cancelled_while Parsing) true true "parsed;" 1))
  /\ openscad_render "cube();" None (boot (cancelled_while Instantiating))
     = (Ok (failure "Render cancelled" "parsed;instantiated;"),
        world (cancelled_while Instantiating) true true "parsed;instantiated;" 1)
  /\ openscad_render "cube();" None (boot (cancelled_while Evaluating))
     = (Ok (failure "Render cancelled" "parsed;instantiated;evaluated;"),
        world (cancelled_while Evaluating) true true
              "parsed;instantiated;evaluated;" 1).
Proof.
  split; [split; [reflexivity|split; [reflexivity|]]|split].
  - exact (proj1 (@render_cancel_checkpoints _ (scripted (cancelled_while Parsing))
                    "cube();" None (boot (cancelled_while Parsing))
                    (world (cancelled_while Parsing) true false "" 1) "cube();"
                    (world (cancelled_while Parsing) true true "parsed;" 1)
                    eq_refl eq_refl)
                 eq_refl).
  - exact (proj1 (proj2 (@render_cancel_checkpoints _
                           (scripted (cancelled_while Instantiating))
                           "cube();" None (boot (cancelled_while Instantiating))
                           (world (cancelled_while Instantiating) true false "" 1)
                           "cube();"
                           (world (cancelled_while Instantiating) true false "parsed;" 1)
                           eq_refl eq_refl)
                        tt
                        (world (cancelled_while Instantiating) true true
                               "parsed;instantiated;" 1)
                        eq_refl eq_refl)
                 eq_refl).
  - exact (proj2 (proj2 (@render_cancel_checkpoints _
                           (scripted (cancelled_while Evaluating))
                           "cube();" None (boot (cancelled_while Evaluating))
                           (world (cancelled_while Evaluating) true false "" 1)
                           "cube();"
                           (world (cancelled_while Evaluating) true false "parsed;" 1)
                           eq_refl eq_refl)
                        tt
                        (world (cancelled_while Evaluating) true false
                               "parsed;instantiated;" 1)
                        eq_refl eq_refl)
                 tt
                 (world (cancelled_while Evaluating) true true
                        "parsed;instantiated;evaluated;" 1)
                 eq_refl eq_refl eq_refl).
Defined.

Lemma failed_render_is_empty_witness :
  openscad_render "cube(" None (boot (broken_parser (StdException "syntax error")))
    = (Ok (failure "Exception: syntax error" "ERROR: parser;"),
       world (broken_parser (StdException "syntax error")) true false "ERROR: parser;" 1)
  /\ success (failure "Exception: syntax error" "ERROR: parser;") = false
  /\ positions (failure "Exception: syntax error" "ERROR: parser;") = []
  /\ normals (failure "Exception: syntax error" "ERROR: parser;") = []
  /\ indices (failure "Exception: syntax error" "ERROR: parser;") = []
  /\ vertex_count (failure "Exception: syntax error" "ERROR: parser;") = 0
  /\ triangle_count (failure "Exception: syntax error" "ERROR: parser;") = 0
  /\ error_message (failure "Exception: syntax error" "ERROR: parser;") <> "".
Proof.
  split; [reflexivity|]. split; [reflexivity|].
  exact (@failed_render_is_empty _ (scripted (broken_parser (StdException "syntax error")))
           "cube(" None (boot (broken_parser (StdException "syntax error")))
           (failure "Exception: syntax error" "ERROR: parser;")
           (world (broken_parser (StdException "syntax error")) true false
                  "ERROR: parser;" 1)
           eq_refl eq_refl).
Defined.

Lemma render_converts_faults_witness :
  render_prologue (boot (broken_parser OtherFault))
    = (Ok true, world (broken_parser OtherFault) true false "" 1)
  /\ render_try "cube(" new_result
       (install_capture (world (broken_parser OtherFault) true false "" 1)).2
     = (Throw OtherFault, world (broken_parser OtherFault) true false "ERROR: parser;" 1)
  /\ openscad_render "cube(" None (boot (broken_parser OtherFault))
     = (Ok {| success := false;
              error_message := "Unknown exception during render";
              console_output := "ERROR: parser;";
              positions := []; normals := []; indices := [];
              vertex_count := 0; triangle_count := 0 |},
        world (broken_parser OtherFault) true false "ERROR: parser;" 1).
Proof.
  split; [reflexivity|]. split; [reflexivity|].
  exact (proj1 (proj2 (@render_converts_faults _ (scripted (broken_parser OtherFault))))
           "cube(" None (boot (broken_parser OtherFault))
           (world (broken_parser OtherFault) true false "" 1) OtherFault
           (world (broken_parser OtherFault) true false "ERROR: parser;" 1)
           eq_refl eq_refl).
Defined.

(** C8 as stated fails: when the setup throws, the first call returns -1
    and clears the flag, and the second call runs the setup again (the
    engine has now seen two setups) and returns -1 again. *)
Lemma init_retries_after_failure :
  openscad_init (boot broken_setup) = (Ok (-1), world broken_setup false false "" 1)
  /\ openscad_init (world broken_setup false false "" 1)
     = (Ok (-1), world broken_setup false false "" 2).
Proof. split; reflexivity. Qed.

Lemma init_idempotent_after_success_witness :
  openscad_init (boot (plain triangle)) = (Ok 0, world (plain triangle) true false "" 1)
  /\ openscad_init (world (plain triangle) true false "" 1)
     = (Ok 0, world (plain triangle) true false "" 1)
  /\ g_initialized (world (plain triangle) true false "" 1) = true.
Proof.
  split; [reflexivity|].
  exact (@init_idempotent_after_success _ (scripted (plain triangle))
           (boot (plain triangle)) (world (plain triangle) true false "" 1) eq_refl).
Defined.

(** * Further properties of the bridge *)

(** ** The capture buffer *)

Lemma append_cons (a : Ascii.ascii) (s t : string) :
  String.append (String a s) t = String a (String.append s t).
Proof. reflexivity. Qed.

Lemma append_empty_r (s : string) : String.append s EmptyString = s.
Proof. induction s as [|a s IH]; [done|]. by rewrite append_cons, IH. Qed.

Lemma append_snoc (s rest : string) (ch : Ascii.ascii) :
  String.append (String.append s (String ch EmptyString)) rest
    = String.append s (String ch rest).
Proof. induction s as [|a s IH]; [done|]. by rewrite !append_cons, IH. Qed.

Lemma to_int_type_range ch : 0 <= to_int_type ch < 256.
Proof.
  unfold to_int_type. pose proof (Ascii.N_ascii_bounded ch). lia.
Qed.

Lemma to_char_to_int_type ch : to_char (to_int_type ch) = ch.
Proof.
  unfold to_char. rewrite Z.mod_small by apply to_int_type_range.
  unfold to_int_type. rewrite N2Z.id. apply Ascii.ascii_N_embedding.
Qed.

(** X1: every character the stream hands to the capture buffer is stored,
    in order and whatever its value (NUL is kept and the byte 255 is not
    taken for [EOF]), and all of them are reported as written; [EOF]
    itself stores nothing. *)
Theorem capture_keeps_every_character :
  (forall text captured,
      sputn text captured
        = (String.append captured text, Z.of_nat (String.length text)))
  /\ (forall captured, overflow captured EOF = (captured, EOF)).
Proof.
  split; [|done].
  induction text as [|ch rest IH]; intros captured; simpl.
  - by rewrite append_empty_r.
  - pose proof (to_int_type_range ch) as Hr.
    unfold overflow.
    destruct (Z.eqb_spec (to_int_type ch) EOF) as [E|_]; [unfold EOF in E; lia|].
    simpl.
    destruct (Z.eqb_spec (to_int_type ch) EOF) as [E|_]; [unfold EOF in E; lia|].
    rewrite IH. simpl. rewrite to_char_to_int_type, append_snoc.
    f_equal. lia.
Qed.

(** ** What a C caller reads *)



Section AccessorFacts.
Context `{Numeric}.



End AccessorFacts.

(** ** Every way [openscad_render] returns *)

Section RenderOutcomes.
Context `{Engine}.

Lemma call_keeps_initialized {A : Type} (stage : EngineState -> Effect EngineState A)
    w o w' :
  call stage w = (o, w') -> g_initialized w' = g_initialized w.
Proof. unfold call. by intros [= _ <-]. Qed.

Lemma extractMeshData_keeps_initialized polyset result w o w' :
  extractMeshData polyset result w = (o, w') -> g_initialized w' = g_initialized w.
Proof.
  unfold extractMeshData, choose_mesh, bind, lift, ret.
  destruct (negb _).
  - destruct (call (tessellate_faces polyset) w) as [[t|f|] w1] eqn:Hc;
      apply call_keeps_initialized in Hc; rewrite <- Hc.
    + by intros [= _ <-].
    + by intros [= _ <-].
    + by intros [= _ <-].
  - by intros [= _ <-].
Qed.

Lemma render_try_keeps_initialized src result w o w' :
  render_try src result w = (o, w') -> g_initialized w' = g_initialized w.
Proof.
  unfold render_try, fail_with, bind, call, get_cancelled, get_captured, ret.
  intros Hr.
  repeat (case_match; simplify_eq/=; try discriminate); try done.
  all: match goal with
       | E : extractMeshData _ _ _ = _ |- _ =>
           apply extractMeshData_keeps_initialized in E; by rewrite E
       end.
Qed.

(** A normal return of the [try] block, in full. *)
Lemma render_try_outcomes src w r w' :
  render_try src new_result w = (Ok r, w') ->
  (exists msg,
      In msg stage_errors /\ r = failure msg (captured w')
      /\ (msg = "Render cancelled" -> g_cancelled w' = true))
  \/ (exists polyset w1 r1,
        extractMeshData polyset new_result w1 = (Ok r1, w')
        /\ r = set_success r1 (captured w')).
Proof.
  unfold render_try, fail_with, bind, call, get_cancelled, get_captured, ret.
  intros Hr.
  repeat (case_match; simplify_eq/=; try discriminate);
    try (left; eexists; split; [|split; [reflexivity|]];
         [unfold stage_errors; simpl; tauto | try discriminate; by intros _]).
  all: right; eauto.
Qed.

(** The four ways in which [openscad_render] returns. *)
Lemma openscad_render_outcomes src fonts w r w' :
  openscad_render src fonts w = (Ok r, w') ->
  (g_initialized w' = false
   /\ r = failure "Failed to initialize OpenSCAD engine" "")
  \/ (g_initialized w' = true
      /\ exists msg,
           In msg stage_errors /\ r = failure msg (captured w')
           /\ (msg = "Render cancelled" -> g_cancelled w' = true))
  \/ (g_initialized w' = true
      /\ exists f, r = failure (fault_message f) (captured w'))
  \/ (g_initialized w' = true
      /\ exists polyset w1 r1,
           extractMeshData polyset new_result w1 = (Ok r1, w')
           /\ r = set_success r1 (captured w')).
Proof.
  intros Hr.
  destruct (render_prologue_cases w) as (ready & w0 & Hp & Hi & _).
  destruct ready.
  - rewrite (openscad_render_ready _ _ _ _ Hp) in Hr. unfold try_catch in Hr.
    destruct (render_try src new_result (install_capture w0).2)
      as [[r1|f|] w1] eqn:Htry; [| |discriminate].
    + injection Hr as -> ->.
      pose proof (render_try_keeps_initialized _ _ _ _ _ Htry) as Hk.
      simpl in Hk. rewrite Hi in Hk.
      destruct (render_try_outcomes _ _ _ _ Htry) as [Herr|Hok].
      * right. left. by split.
      * right. right. right. by split.
    + injection Hr as <- <-.
      pose proof (render_try_keeps_initialized _ _ _ _ _ Htry) as Hk.
      simpl in Hk. rewrite Hi in Hk.
      right. right. left. split; [done|]. by exists f.
  - rewrite (openscad_render_not_ready _ _ _ _ Hp) in Hr.
    injection Hr as <- <-. left. by split.
Qed.

Lemma fault_message_not_empty f : fault_message f <> "".
Proof. by destruct f. Qed.

Lemma stage_error_cases msg :
  In msg stage_errors ->
  msg = "Failed to parse OpenSCAD source" \/ msg = "Render cancelled"
  \/ msg = "Failed to instantiate module" \/ msg = "Failed to evaluate geometry"
  \/ msg = "Geometry produced no mesh data".
Proof. unfold stage_errors. simpl. intuition. Qed.

Lemma length_coordinates (vertices : list Vector3d) :
  length (vertices ≫= coordinates) = (3 * length vertices)%nat.
Proof.
  induction vertices as [|v vs IH]; [done|].
  rewrite bind_cons, length_app, IH. simpl. lia.
Qed.

(** What extraction stores, for a fresh result. *)
Lemma extracted_arrays polyset w r w' :
  extractMeshData polyset new_result w = (Ok r, w') ->
  exists ps,
    choose_mesh polyset w = (Ok ps, w')
    /\ positions r = ps_vertices ps ≫= coordinates
    /\ indices r = ps_indices ps ≫= triangle_of
    /\ length (normals r) = (3 * length (ps_vertices ps))%nat
    /\ vertex_count r = Z.of_nat (length (ps_vertices ps))
    /\ triangle_count r = Z.of_nat (length (ps_indices ps ≫= triangle_of)) / 3
    /\ error_message r = "".
Proof.
  intros Hx. destruct (extractMeshData_ok _ _ _ _ _ Hx) as (ps & Hps & Hfill).
  exists ps. split; [done|].
  destruct (fill_mesh_shape ps new_result) as (nrm & E & L).
  rewrite E in Hfill. injection Hfill as <-. simpl in *. by repeat split.
Qed.

End RenderOutcomes.

(** ** What a caller can rely on after [openscad_render] *)

Section RenderProperties.
Context `{Engine}.

Lemma data_or_null_none {A : Type} (v : list A) :
  data_or_null v = None <-> length v = 0%nat.
Proof. destruct v; simpl; split; intros; done. Qed.

Lemma data_or_null_some {A : Type} (v p : list A) : data_or_null v = Some p -> p = v.
Proof. destruct v; simpl; intros; by simplify_eq. Qed.

Lemma c_str_empty s :
  c_str s = EmptyString -> s = EmptyString \/ exists rest, s = String Ascii.zero rest.
Proof.
  destruct s as [|ch s]; simpl; [by left|].
  destruct (Ascii.eqb_spec ch Ascii.zero) as [->|_]; [|done].
  intros _. right. by eexists.
Qed.

(** The array lengths against the counts, for every returned result. *)
Lemma render_result_lengths src fonts w r w' :
  openscad_render src fonts w = (Ok r, w') ->
  Z.of_nat (length (positions r)) = 3 * vertex_count r
  /\ Z.of_nat (length (normals r)) = 3 * vertex_count r
  /\ Z.of_nat (length (indices r)) = 3 * triangle_count r.
Proof.
  intros Hr.
  destruct (openscad_render_outcomes _ _ _ _ _ Hr)
    as [[_ ->]|[[_ (msg & _ & -> & _)]|[[_ (f & ->)]|[_ (polyset & w1 & r1 & Hx & ->)]]]];
    try done.
  destruct (extracted_arrays _ _ _ _ Hx) as (ps & _ & Hp & Hi & Hn & Hv & Ht & _).
  simpl. rewrite Hp, Hi, Hn, Hv, Ht, length_coordinates, length_triangles.
  rewrite !Nat2Z.inj_mul. simpl Z.of_nat.
  rewrite (Z.mul_comm 3 (Z.of_nat (length (filter _ _)))), Z.div_mul by lia.
  lia.
Qed.

(** X3: every result that [openscad_render] returns is internally
    consistent: [positions] and [normals] hold three entries per counted
    vertex and [indices] three per counted triangle; and a successful
    result carries no error message. *)
Theorem render_result_is_consistent src fonts w r w' :
  openscad_render src fonts w = (Ok r, w') ->
  Z.of_nat (length (positions r)) = 3 * vertex_count r
  /\ Z.of_nat (length (normals r)) = 3 * vertex_count r
  /\ Z.of_nat (length (indices r)) = 3 * triangle_count r
  /\ (success r = true -> error_message r = "").
Proof.
  intros Hr.
  destruct (render_result_lengths _ _ _ _ _ Hr) as (Hp & Hn & Hi).
  repeat split; try done.
  destruct (openscad_render_outcomes _ _ _ _ _ Hr)
    as [[_ ->]|[[_ (msg & _ & -> & _)]|[[_ (f & ->)]|[_ (polyset & w1 & r1 & Hx & ->)]]]];
    try done.
  intros _. by destruct (extracted_arrays _ _ _ _ Hx) as (ps & _ & _ & _ & _ & _ & _ & He).
Qed.

(** X4: for a result of [openscad_render], the error accessor returns the
    empty string exactly when the success accessor returns true. *)
Theorem error_accessor_empty_iff_success src fonts w r w' :
  openscad_render src fonts w = (Ok r, w') ->
  openscad_result_error (Some r) = "" <-> openscad_result_success (Some r) = true.
Proof.
  intros Hr. simpl.
  destruct (openscad_render_outcomes _ _ _ _ _ Hr)
    as [[_ ->]|[[_ (msg & Hmsg & -> & _)]|[[_ (f & ->)]|[_ (polyset & w1 & r1 & Hx & ->)]]]].
  - split; [|done]. intros Hc. by apply c_str_empty in Hc as [Hc|[rest Hc]].
  - apply stage_error_cases in Hmsg.
    split; [|done]. intros Hc. simpl in Hc.
    apply c_str_empty in Hc as [Hc|[rest Hc]];
      destruct Hmsg as [->|[->|[->|[->| ->]]]]; discriminate.
  - split; [|done]. intros Hc. simpl in Hc.
    apply c_str_empty in Hc as [Hc|[rest Hc]]; destruct f; discriminate.
  - destruct (extracted_arrays _ _ _ _ Hx) as (ps & _ & _ & _ & _ & _ & _ & He).
    simpl. by rewrite He.
Qed.

(** X5: for a result of [openscad_render], an array accessor returns the
    null pointer exactly when the matching count is zero, and otherwise an
    array of three entries per counted vertex (or triangle). *)
Theorem array_accessors_match_counts src fonts w r w' :
  openscad_render src fonts w = (Ok r, w') ->
  (openscad_result_positions (Some r) = None <-> openscad_result_vertex_count (Some r) = 0)
  /\ (openscad_result_normals (Some r) = None <-> openscad_result_vertex_count (Some r) = 0)
  /\ (openscad_result_indices (Some r) = None
      <-> openscad_result_triangle_count (Some r) = 0)
  /\ (forall p, openscad_result_positions (Some r) = Some p ->
                Z.of_nat (length p) = 3 * openscad_result_vertex_count (Some r))
  /\ (forall n, openscad_result_normals (Some r) = Some n ->
                Z.of_nat (length n) = 3 * openscad_result_vertex_count (Some r))
  /\ (forall i, openscad_result_indices (Some r) = Some i ->
                Z.of_nat (length i) = 3 * openscad_result_triangle_count (Some r)).
Proof.
  intros Hr. destruct (render_result_lengths _ _ _ _ _ Hr) as (Hp & Hn & Hi).
  simpl. rewrite !data_or_null_none.
  repeat split; try lia.
  - intros p Hd. apply data_or_null_some in Hd. by subst.
  - intros n Hd. apply data_or_null_some in Hd. by subst.
  - intros i Hd. apply data_or_null_some in Hd. by subst.
Qed.

(** X6: the console text of a result is everything the capture buffer
    held when [openscad_render] returned, on success and on every failure,
    except when the engine could not be initialised: then nothing was
    captured and the console text is empty. *)
Theorem render_console_is_captured src fonts w r w' :
  openscad_render src fonts w = (Ok r, w') ->
  (g_initialized w' = true -> console_output r = captured w')
  /\ (g_initialized w' = false -> console_output r = "").
Proof.
  intros Hr.
  destruct (openscad_render_outcomes _ _ _ _ _ Hr)
    as [[Hi ->]|[[Hi (msg & _ & -> & _)]|[[Hi (f & ->)]|[Hi (polyset & w1 & r1 & Hx & ->)]]]];
    split; intros Hi'; try done; congruence.
Qed.

(** X7: a render reports "Render cancelled" only if a cancellation really
    was requested while it ran: the flag is then still set when it
    returns, and the result is a failure. *)
Theorem cancelled_only_on_request src fonts w r w' :
  openscad_render src fonts w = (Ok r, w') ->
  error_message r = "Render cancelled" ->
  g_cancelled w' = true /\ success r = false.
Proof.
  intros Hr Hmsg.
  destruct (openscad_render_outcomes _ _ _ _ _ Hr)
    as [[_ ->]|[[_ (msg & _ & -> & Hc)]|[[_ (f & ->)]|[_ (polyset & w1 & r1 & Hx & ->)]]]].
  - discriminate.
  - simpl in Hmsg. split; [by apply Hc|done].
  - destruct f; discriminate.
  - destruct (extracted_arrays _ _ _ _ Hx) as (ps & _ & _ & _ & _ & _ & _ & He).
    simpl in Hmsg. congruence.
Qed.

(** X8: a render fails with "Failed to initialize OpenSCAD engine" exactly
    when the engine is not initialised when it returns (so that the next
    call tries the setup again); after any other result the engine is
    initialised. *)
Theorem init_failure_iff_uninitialized src fonts w r w' :
  openscad_render src fonts w = (Ok r, w') ->
  error_message r = "Failed to initialize OpenSCAD engine" <-> g_initialized w' = false.
Proof.
  intros Hr.
  destruct (openscad_render_outcomes _ _ _ _ _ Hr)
    as [[Hi ->]|[[Hi (msg & Hmsg & -> & _)]|[[Hi (f & ->)]|[Hi (polyset & w1 & r1 & Hx & ->)]]]].
  - done.
  - apply stage_error_cases in Hmsg. split; [|congruence]. simpl.
    destruct Hmsg as [->|[->|[->|[->| ->]]]]; discriminate.
  - split; [|congruence]. simpl. destruct f; discriminate.
  - destruct (extracted_arrays _ _ _ _ Hx) as (ps & _ & _ & _ & _ & _ & _ & He).
    split; [|congruence]. simpl. rewrite He. discriminate.
Qed.

(** X9: the error message of a failed render is one of seven fixed texts,
    or "Exception: " followed by the text of the exception. *)
Theorem render_error_taxonomy src fonts w r w' :
  openscad_render src fonts w = (Ok r, w') ->
  success r = false ->
  In (error_message r)
     ("Failed to initialize OpenSCAD engine" :: "Unknown exception during render"
        :: stage_errors)
  \/ exists what, error_message r = String.append "Exception: " what.
Proof.
  intros Hr Hfail.
  destruct (openscad_render_outcomes _ _ _ _ _ Hr)
    as [[_ ->]|[[_ (msg & Hmsg & -> & _)]|[[_ (f & ->)]|[_ (polyset & w1 & r1 & Hx & ->)]]]].
  - left. by left.
  - left. right. right. done.
  - destruct f as [what|].
    + right. by exists what.
    + left. right. by left.
  - discriminate.
Qed.

(** X10: a render does not depend on what earlier calls left in the
    cancellation flag or in the capture buffer: from two process states
    with the same engine and the same initialized flag it returns the same
    result and leaves the same flags and engine. *)
Theorem render_forgets_stale_state src fonts w1 w2 :
  g_initialized w1 = g_initialized w2 ->
  engine w1 = engine w2 ->
  (openscad_render src fonts w1).1 = (openscad_render src fonts w2).1
  /\ g_initialized (openscad_render src fonts w1).2
     = g_initialized (openscad_render src fonts w2).2
  /\ g_cancelled (openscad_render src fonts w1).2
     = g_cancelled (openscad_render src fonts w2).2
  /\ engine (openscad_render src fonts w1).2 = engine (openscad_render src fonts w2).2.
Proof.
  destruct w1 as [i1 c1 t1 e1], w2 as [i2 c2 t2 e2]. simpl.
  intros -> ->.
  unfold openscad_render, render_prologue, openscad_init, bind, set_cancelled,
    get_initialized, exchange_initialized, try_catch, call_uncaptured,
    set_initialized, install_capture, ret.
  simpl. destruct i2; simpl.
  - done.
  - destruct (engine_setup e2) as [[v|f] e t c]; simpl; done.
Qed.

(** X11: [openscad_init] never throws; it returns 0 exactly when the
    engine is initialised afterwards and -1 exactly when it is not. *)
Theorem init_status_reflects_flag w :
  exists rc w',
    openscad_init w = (Ok rc, w')
    /\ (rc = 0 \/ rc = -1)
    /\ (rc = 0 <-> g_initialized w' = true)
    /\ (rc = -1 <-> g_initialized w' = false).
Proof.
  destruct (openscad_init_cases w) as (rc & w' & E & [[-> Hi]|[-> Hi]]).
  - exists 0, w'. rewrite Hi. repeat split; try done; auto.
  - exists (-1), w'. rewrite Hi. repeat split; try done; auto.
Qed.

End RenderProperties.

(** ** More on mesh extraction *)

Section ExtractionProperties.
Context `{Engine}.

(** X12: the positions are the coordinates of the vertices of the mesh,
    in order, three per vertex, whatever the faces are (even faces that
    name vertices that do not exist), and the normal array has the same
    length. *)
Theorem extract_positions_copy_vertices polyset w ps w' :
  choose_mesh polyset w = (Ok ps, w') ->
  exists r,
    extractMeshData polyset new_result w = (Ok r, w')
    /\ positions r = ps_vertices ps ≫= coordinates
    /\ vertex_count r = Z.of_nat (length (ps_vertices ps))
    /\ length (positions r) = (3 * length (ps_vertices ps))%nat
    /\ length (normals r) = (3 * length (ps_vertices ps))%nat.
Proof.
  intros Hps. rewrite (extractMeshData_run _ _ _ _ _ Hps). unfold lift.
  destruct (fill_mesh_shape ps new_result) as (nrm & -> & L).
  eexists. split; [done|]. simpl in *.
  by rewrite length_coordinates.
Qed.

(** X13: when the input mesh is triangular, extraction calls nothing of
    the engine (the process state is as before) and runs on the input;
    when it is not and the tessellator returns no mesh, extraction falls
    back to the input instead of failing. *)
Theorem extract_falls_back_to_input polyset result w :
  (isTriangular polyset = true ->
   exists r, extractMeshData polyset result w = (Ok r, w)
             /\ fill_mesh polyset result = Some r)
  /\ (forall w1,
        isTriangular polyset = false ->
        call (tessellate_faces polyset) w = (Ok None, w1) ->
        exists r, extractMeshData polyset result w = (Ok r, w1)
                  /\ fill_mesh polyset result = Some r).
Proof.
  destruct (fill_mesh_shape polyset result) as (nrm & E & _).
  split.
  - intros Ht. eexists. split; [|exact E].
    rewrite (extractMeshData_run _ _ _ polyset w).
    + unfold lift. by rewrite E.
    + unfold choose_mesh. by rewrite Ht.
  - intros w1 Ht Hc. eexists. split; [|exact E].
    rewrite (extractMeshData_run _ _ _ polyset w1).
    + unfold lift. by rewrite E.
    + unfold choose_mesh. rewrite Ht. simpl. unfold bind. by rewrite Hc.
Qed.

(** A face without a geometric normal only adds its triangle. *)
Lemma face_step_flat vertices (st : list Z * list float) face :
  has_normal vertices face = false ->
  face_step vertices (Z.of_nat (length vertices)) st face
    = Some (st.1 ++ triangle_of face, st.2).
Proof.
  unfold has_normal, face_normal. destruct st as [ids nrm].
  destruct face as [|f0 [|f1 [|f2 rest]]]; simpl;
    try (intros _; by rewrite app_nil_r).
  pose proof (u32_range f0) as R0.
  pose proof (u32_range f1) as R1.
  pose proof (u32_range f2) as R2.
  destruct (Z.ltb_spec (u32 f0) (Z.of_nat (length vertices))); simpl; [|done].
  destruct (Z.ltb_spec (u32 f1) (Z.of_nat (length vertices))); simpl; [|done].
  destruct (Z.ltb_spec (u32 f2) (Z.of_nat (length vertices))); simpl; [|done].
  destruct (vec_get_in_range vertices (u32 f0) ltac:(lia)) as [v0 ->].
  destruct (vec_get_in_range vertices (u32 f1) ltac:(lia)) as [v1 ->].
  destruct (vec_get_in_range vertices (u32 f2) ltac:(lia)) as [v2 ->].
  simpl. by destruct (d_gt0 _).
Qed.

(** What a face does to the normals does not depend on the indices
    collected so far. *)
Lemma face_step_normals vertices n ids ids' (nrm : list float) face :
  snd <$> face_step vertices n (ids, nrm) face
    = snd <$> face_step vertices n (ids', nrm) face.
Proof.
  unfold face_step. cbn [fst snd].
  destruct face as [|f0 [|f1 [|f2 rest]]]; try done.
  destruct (_ && _); [|done].
  destruct (vec_get vertices (u32 f0)) as [v0|]; [|done].
  destruct (vec_get vertices (u32 f1)) as [v1|]; [|done].
  destruct (vec_get vertices (u32 f2)) as [v2|]; [|done].
  cbn [mbind option_bind].
  destruct (d_gt0 _); [|done].
  by destruct (for_each (accumulate _) _ nrm).
Qed.

Lemma faces_normals_ignore_flat vertices faces ids ids' (nrm : list float) :
  snd <$> for_each (face_step vertices (Z.of_nat (length vertices))) faces (ids, nrm)
    = snd <$> for_each (face_step vertices (Z.of_nat (length vertices)))
                (filter (fun face => has_normal vertices face = true) faces) (ids', nrm).
Proof.
  revert ids ids' nrm. induction faces as [|face faces IH]; intros ids ids' nrm; [done|].
  rewrite filter_cons. case_decide as Hn.
  - cbn [for_each].
    pose proof (face_step_normals vertices (Z.of_nat (length vertices)) ids ids' nrm face)
      as Hs.
    destruct (face_step _ _ (ids, nrm) face) as [[a n1]|];
      destruct (face_step _ _ (ids', nrm) face) as [[b n2]|];
      simpl in Hs; try discriminate; [|done].
    injection Hs as ->. simpl. apply IH.
  - apply not_true_is_false in Hn. cbn [for_each].
    rewrite (face_step_flat vertices (ids, nrm) face Hn). simpl. apply IH.
Qed.

Lemma fill_mesh_normals ps result :
  normals <$> fill_mesh ps result
    = (snd <$> for_each (face_step (ps_vertices ps) (Z.of_nat (length (ps_vertices ps))))
                 (ps_indices ps)
                 (indices result,
                  (fold_left push_vertex (ps_vertices ps)
                             (positions result, normals result)).2))
        ≫= for_each normalize_vertex (upto (length (ps_vertices ps))).
Proof.
  unfold fill_mesh.
  destruct (for_each (face_step _ _) _ _) as [st|]; simpl; [|done].
  by destruct (for_each normalize_vertex _ _).
Qed.

(** X14: the faces without a geometric normal (fewer than three vertices,
    a vertex index out of range, or a cross product without positive
    length) never change a normal: extraction gives the same normals, the
    same positions and the same vertex count as on the mesh without those
    faces.  This holds for every mesh and every result to fill. *)
Theorem flat_faces_leave_normals ps result :
  exists r r',
    fill_mesh ps result = Some r
    /\ fill_mesh (drop_flat_faces ps) result = Some r'
    /\ normals r' = normals r
    /\ positions r' = positions r
    /\ vertex_count r' = vertex_count r.
Proof.
  destruct (fill_mesh_shape ps result) as (nrm & E & _).
  destruct (fill_mesh_shape (drop_flat_faces ps) result) as (nrm' & E' & _).
  pose proof (fill_mesh_normals ps result) as Hn.
  pose proof (fill_mesh_normals (drop_flat_faces ps) result) as Hn'.
  simpl in Hn'.
  rewrite <- (faces_normals_ignore_flat (ps_vertices ps) (ps_indices ps)
                (indices result) (indices result)) in Hn'.
  rewrite <- Hn, E, E' in Hn'. simpl in Hn'. injection Hn' as ->.
  eexists. eexists. split; [exact E|]. split; [exact E'|]. done.
Qed.

End ExtractionProperties.

Section UntouchedVertices.
Context `{Engine}.

Lemma alters_elsewhere (g : Normal -> Normal) (t : list Z) (accs : list Normal) (i : nat) :
  Forall (fun j => 0 <= j) t ->
  ~ In (Z.of_nat i) t ->
  foldl (fun a j => alter g (Z.to_nat j) a) accs t !! i = accs !! i.
Proof.
  revert accs. induction t as [|j t IH]; intros accs Hpos Hin; [done|].
  inversion_clear Hpos as [|?? Hj Ht]. simpl.
  rewrite IH; [|done|by intros Hc; apply Hin; right].
  apply list_lookup_alter_ne. intros <-. apply Hin. left. lia.
Qed.

Lemma accumulate_face_elsewhere vertices (accs : list Normal) face (i : nat) :
  (has_normal vertices face = true -> ~ In (Z.of_nat i) (triangle_of face)) ->
  accumulate_face vertices accs face !! i = accs !! i.
Proof.
  unfold has_normal, accumulate_face.
  destruct (face_normal vertices face) as [n|]; [|done].
  intros Hin. apply alters_elsewhere; [|by apply Hin].
  eapply Forall_impl; [apply triangle_of_range|]. simpl. lia.
Qed.

Lemma accumulate_faces_elsewhere vertices faces (accs : list Normal) (i : nat) :
  Forall (fun face => has_normal vertices face = true
                      -> ~ In (Z.of_nat i) (triangle_of face)) faces ->
  foldl (accumulate_face vertices) accs faces !! i = accs !! i.
Proof.
  revert accs. induction faces as [|face faces IH]; intros accs Hfaces; [done|].
  inversion_clear Hfaces as [|?? Hface Hrest]. simpl.
  rewrite IH by done. by apply accumulate_face_elsewhere.
Qed.

(** X15: in a mesh small enough that no slot index wraps, a vertex that no
    face with a geometric normal refers to gets the default normal
    (0,0,1), provided the arithmetic finds no positive length in the zero
    vector (as IEEE arithmetic does). *)
Theorem untouched_vertex_gets_default_normal polyset w ps w' (i : nat) :
  choose_mesh polyset w = (Ok ps, w') ->
  3 * Z.of_nat (length (ps_vertices ps)) <= 2 ^ 32 ->
  (i < length (ps_vertices ps))%nat ->
  Forall (fun face => has_normal (ps_vertices ps) face = true
                      -> ~ In (Z.of_nat i) (triangle_of face))
         (ps_indices ps) ->
  finish_normal zero_normal = default_normal ->
  exists r,
    extractMeshData polyset new_result w = (Ok r, w')
    /\ normals r !! (3 * i + 0)%nat = Some f_zero
    /\ normals r !! (3 * i + 1)%nat = Some f_zero
    /\ normals r !! (3 * i + 2)%nat = Some f_one.
Proof.
  intros Hps Hsmall Hi Hfaces Hzero.
  rewrite (extractMeshData_run _ _ _ _ _ Hps). unfold lift.
  rewrite fill_mesh_refines by done.
  eexists. split; [done|]. cbn [normals].
  assert (vertex_normals ps !! i = Some default_normal) as Hv.
  { unfold vertex_normals. rewrite list_lookup_fmap.
    rewrite accumulate_faces_elsewhere by done.
    rewrite lookup_replicate_2 by done. simpl. by rewrite Hzero. }
  rewrite !interleave_lookup by lia. rewrite Hv. done.
Qed.

End UntouchedVertices.

(** *** Concrete runs for the further properties *)


Lemma render_result_is_consistent_witness :
  openscad_render "cube();" None (boot (plain triangle))
    = (Ok (rendered_triangle full_text), world (plain triangle) true false full_text 1)
  /\ Z.of_nat (length (positions (rendered_triangle full_text)))
     = 3 * vertex_count (rendered_triangle full_text)
  /\ Z.of_nat (length (normals (rendered_triangle full_text)))
     = 3 * vertex_count (rendered_triangle full_text)
  /\ Z.of_nat (length (indices (rendered_triangle full_text)))
     = 3 * triangle_count (rendered_triangle full_text)
  /\ (success (rendered_triangle full_text) = true
      -> error_message (rendered_triangle full_text) = "").
Proof.
  split; [reflexivity|].
  exact (@render_result_is_consistent _ (scripted (plain triangle))
           "cube();" None (boot (plain triangle)) (rendered_triangle full_text)
           (world (plain triangle) true false full_text 1) eq_refl).
Defined.

Lemma error_accessor_empty_iff_success_witness :
  openscad_render "cube();" None (boot (cancelled_while Parsing))
    = (Ok (failure "Render cancelled" "parsed;"),
       world (cancelled_while Parsing) true true "parsed;" 1)
  /\ (openscad_result_error (Some (failure "Render cancelled" "parsed;")) = ""
      <-> openscad_result_success (Some (failure "Render cancelled" "parsed;")) = true).
Proof.
  split; [reflexivity|].
  exact (@error_accessor_empty_iff_success _ (scripted (cancelled_while Parsing))
           "cube();" None (boot (cancelled_while Parsing))
           (failure "Render cancelled" "parsed;")
           (world (cancelled_while Parsing) true true "parsed;" 1) eq_refl).
Defined.

Lemma array_accessors_match_counts_witness :
  openscad_render "cube();" None (boot (plain triangle))
    = (Ok (rendered_triangle full_text), world (plain triangle) true false full_text 1)
  /\ (openscad_result_positions (Some (rendered_triangle full_text)) = None
      <-> openscad_result_vertex_count (Some (rendered_triangle full_text)) = 0)
  /\ (forall p, openscad_result_positions (Some (rendered_triangle full_text)) = Some p ->
                Z.of_nat (length p)
                = 3 * openscad_result_vertex_count (Some (rendered_triangle full_text))).
Proof.
  split; [reflexivity|].
  pose proof (@array_accessors_match_counts _ (scripted (plain triangle))
                "cube();" None (boot (plain triangle)) (rendered_triangle full_text)
                (world (plain triangle) true false full_text 1) eq_refl)
    as (Hp & _ & _ & Hl & _).
  split; [exact Hp|exact Hl].
Defined.

Lemma render_console_is_captured_witness :
  openscad_render "cube(" None (boot (broken_parser OtherFault))
    = (Ok (failure "Unknown exception during render" "ERROR: parser;"),
       world (broken_parser OtherFault) true false "ERROR: parser;" 1)
  /\ console_output (failure "Unknown exception during render" "ERROR: parser;")
     = "ERROR: parser;".
Proof.
  split; [reflexivity|].
  exact (proj1 (@render_console_is_captured _ (scripted (broken_parser OtherFault))
                  "cube(" None (boot (broken_parser OtherFault))
                  (failure "Unknown exception during render" "ERROR: parser;")
                  (world (broken_parser OtherFault) true false "ERROR: parser;" 1)
                  eq_refl)
               eq_refl).
Defined.

Lemma cancelled_only_on_request_witness :
  openscad_render "cube();" None (boot (cancelled_while Evaluating))
    = (Ok (failure "Render cancelled" "parsed;instantiated;evaluated;"),
       world (cancelled_while Evaluating) true true "parsed;instantiated;evaluated;" 1)
  /\ error_message (failure "Render cancelled" "parsed;instantiated;evaluated;")
     = "Render cancelled"
  /\ g_cancelled (world (cancelled_while Evaluating) true true
                        "parsed;instantiated;evaluated;" 1) = true
  /\ success (failure "Render cancelled" "parsed;instantiated;evaluated;") = false.
Proof.
  split; [reflexivity|]. split; [reflexivity|].
  exact (@cancelled_only_on_request _ (scripted (cancelled_while Evaluating))
           "cube();" None (boot (cancelled_while Evaluating))
           (failure "Render cancelled" "parsed;instantiated;evaluated;")
           (world (cancelled_while Evaluating) true true
                  "parsed;instantiated;evaluated;" 1)
           eq_refl eq_refl).
Defined.

Lemma init_failure_iff_uninitialized_witness :
  openscad_render "cube();" None (boot broken_setup)
    = (Ok (failure "Failed to initialize OpenSCAD engine" ""),
       world broken_setup false false "" 1)
  /\ (error_message (failure "Failed to initialize OpenSCAD engine" "")
      = "Failed to initialize OpenSCAD engine"
      <-> g_initialized (world broken_setup false false "" 1) = false).
Proof.
  split; [reflexivity|].
  exact (@init_failure_iff_uninitialized _ (scripted broken_setup)
           "cube();" None (boot broken_setup)
           (failure "Failed to initialize OpenSCAD engine" "")
           (world broken_setup false false "" 1) eq_refl).
Defined.

Lemma render_error_taxonomy_witness :
  openscad_render "cube(" None (boot (broken_parser (StdException "syntax error")))
    = (Ok (failure "Exception: syntax error" "ERROR: parser;"),
       world (broken_parser (StdException "syntax error")) true false "ERROR: parser;" 1)
  /\ success (failure "Exception: syntax error" "ERROR: parser;") = false
  /\ (In (error_message (failure "Exception: syntax error" "ERROR: parser;"))
         ("Failed to initialize OpenSCAD engine" :: "Unknown exception during render"
            :: stage_errors)
      \/ exists what,
           error_message (failure "Exception: syntax error" "ERROR: parser;")
           = String.append "Exception: " what).
Proof.
  split; [reflexivity|]. split; [reflexivity|].
  exact (@render_error_taxonomy _ (scripted (broken_parser (StdException "syntax error")))
           "cube(" None (boot (broken_parser (StdException "syntax error")))
           (failure "Exception: syntax error" "ERROR: parser;")
           (world (broken_parser (StdException "syntax error")) true false
                  "ERROR: parser;" 1)
           eq_refl eq_refl).
Defined.

Lemma render_forgets_stale_state_witness :
  g_initialized (world (plain triangle) true true "old text" 1)
    = g_initialized (world (plain triangle) true false "" 1)
  /\ engine (world (plain triangle) true true "old text" 1)
     = engine (world (plain triangle) true false "" 1)
  /\ (openscad_render "cube();" None (world (plain triangle) true true "old text" 1)).1
     = (openscad_render "cube();" None (world (plain triangle) true false "" 1)).1.
Proof.
  split; [reflexivity|]. split; [reflexivity|].
  exact (proj1 (@render_forgets_stale_state _ (scripted (plain triangle))
                  "cube();" None
                  (world (plain triangle) true true "old text" 1)
                  (world (plain triangle) true false "" 1) eq_refl eq_refl)).
Defined.

Lemma extract_positions_copy_vertices_witness :
  @choose_mesh _ (scripted (plain dangling)) dangling (boot _) = (Ok dangling, boot _)
  /\ exists r,
       @extractMeshData _ (scripted (plain dangling)) dangling new_result (boot _)
         = (Ok r, boot _)
       /\ positions r = ps_vertices dangling ≫= coordinates
       /\ vertex_count r = 3.
Proof.
  assert (@choose_mesh _ (scripted (plain dangling)) dangling (boot _)
          = (Ok dangling, boot _)) as Hps by reflexivity.
  split; [exact Hps|].
  destruct (extract_positions_copy_vertices _ _ _ _ Hps) as (r & E & Hp & Hv & _).
  exists r. split; [exact E|]. split; [exact Hp|exact Hv].
Defined.

Lemma extract_falls_back_to_input_witness :
  @isTriangular _ (scripted (plain sheet)) sheet = false
  /\ call (@tessellate_faces _ (scripted (plain sheet)) sheet) (boot (plain sheet))
     = (Ok None, world (plain sheet) false false "tessellated;" 0)
  /\ exists r,
       @extractMeshData _ (scripted (plain sheet)) sheet new_result (boot _)
         = (Ok r, world (plain sheet) false false "tessellated;" 0)
       /\ fill_mesh sheet new_result = Some r.
Proof.
  split; [reflexivity|]. split; [reflexivity|].
  exact (proj2 (@extract_falls_back_to_input _ (scripted (plain sheet)) sheet new_result
                  (boot (plain sheet)))
               (world (plain sheet) false false "tessellated;" 0) eq_refl eq_refl).
Defined.

Lemma untouched_vertex_gets_default_normal_witness :
  @choose_mesh _ (scripted (plain spare)) spare (boot _) = (Ok spare, boot _)
  /\ 3 * Z.of_nat (length (ps_vertices spare)) <= 2 ^ 32
  /\ (3 < length (ps_vertices spare))%nat
  /\ Forall (fun face => has_normal (ps_vertices spare) face = true
                         -> ~ In (Z.of_nat 3) (triangle_of face))
            (ps_indices spare)
  /\ finish_normal zero_normal = default_normal
  /\ exists r,
       @extractMeshData _ (scripted (plain spare)) spare new_result (boot _)
         = (Ok r, boot _)
       /\ normals r !! (3 * 3 + 0)%nat = Some f_zero
       /\ normals r !! (3 * 3 + 1)%nat = Some f_zero
       /\ normals r !! (3 * 3 + 2)%nat = Some f_one.
Proof.
  assert (@choose_mesh _ (scripted (plain spare)) spare (boot _) = (Ok spare, boot _))
    as Hps by reflexivity.
  assert (3 * Z.of_nat (length (ps_vertices spare)) <= 2 ^ 32) as Hsmall
    by (simpl; lia).
  assert (3 < length (ps_vertices spare))%nat as Hi by (simpl; lia).
  assert (Forall (fun face => has_normal (ps_vertices spare) face = true
                              -> ~ In (Z.of_nat 3) (triangle_of face))
                 (ps_indices spare)) as Hfaces.
  { constructor; [|constructor]. intros _.
    change (~ In 3 [u32 0; u32 1; u32 2]). rewrite !u32_small by lia.
    simpl. lia. }
  assert (finish_normal zero_normal = default_normal) as Hzero by reflexivity.
  split; [exact Hps|]. split; [exact Hsmall|]. split; [exact Hi|].
  split; [exact Hfaces|]. split; [exact Hzero|].
  exact (untouched_vertex_gets_default_normal _ _ _ _ 3%nat Hps Hsmall Hi Hfaces Hzero).
Defined.

(** ** Beyond 2^32 slots: the 32-bit slot index wraps *)

Section WrappedExtraction.
Context `{Numeric}.

Lemma usize_slot_exact64 i k n :
  0 <= i < n -> 3 * n <= 2 ^ 64 -> 0 <= k <= 2 ->
  usize (usize (i * 3) + k) = i * 3 + k.
Proof.
  intros Hi Hn Hk. unfold usize.
  rewrite Zplus_mod_idemp_l. apply Z.mod_small. lia.
Qed.

(** The last loop, which indexes with [size_t], is right for every array
    that fits in memory. *)
Lemma normalize_vertex_refines64 (accs : list Normal) (i : nat) :
  (i < length accs)%nat -> 3 * Z.of_nat (length accs) <= 2 ^ 64 ->
  normalize_vertex (interleave accs) (Z.of_nat i)
    = Some (interleave (alter finish_normal i accs)).
Proof.
  intros Hi Hsmall. unfold normalize_vertex.
  rewrite !(usize_slot_exact64 (Z.of_nat i) _ (Z.of_nat (length accs))) by lia.
  rewrite !vec_get_lookup by lia.
  replace (Z.to_nat (Z.of_nat i * 3 + 0)) with (3 * i + 0)%nat by lia.
  replace (Z.to_nat (Z.of_nat i * 3 + 1)) with (3 * i + 1)%nat by lia.
  replace (Z.to_nat (Z.of_nat i * 3 + 2)) with (3 * i + 2)%nat by lia.
  rewrite !interleave_lookup by lia.
  destruct (lookup_lt_is_Some_2 accs i Hi) as [[[nx ny] nz] Hacc].
  rewrite Hacc. cbn [fmap option_fmap option_map component mbind option_bind].
  assert (finish_normal (nx, ny, nz) =
          if f_gt0 (f_sqrt (f_add (f_add (f_mul nx nx) (f_mul ny ny)) (f_mul nz nz)))
          then (f_div nx (f_sqrt (f_add (f_add (f_mul nx nx) (f_mul ny ny)) (f_mul nz nz))),
                f_div ny (f_sqrt (f_add (f_add (f_mul nx nx) (f_mul ny ny)) (f_mul nz nz))),
                f_div nz (f_sqrt (f_add (f_add (f_mul nx nx) (f_mul ny ny)) (f_mul nz nz))))
          else default_normal) as Hfin by done.
  destruct (f_gt0 _).
  all: rewrite vec_set_alter by (rewrite length_interleave; lia); rewrite bind_some_l.
  all: rewrite vec_set_alter by (rewrite length_alter, length_interleave; lia);
    rewrite bind_some_l.
  all: rewrite vec_set_alter by (rewrite !length_alter, length_interleave; lia).
  all: f_equal.
  all: replace (Z.to_nat (Z.of_nat i * 3 + 0)) with (3 * i + 0)%nat by lia.
  all: replace (Z.to_nat (Z.of_nat i * 3 + 1)) with (3 * i + 1)%nat by lia.
  all: replace (Z.to_nat (Z.of_nat i * 3 + 2)) with (3 * i + 2)%nat by lia.
  all: rewrite !interleave_alter by lia; f_equal.
  all: rewrite !list_alter_alter_eq.
  all: apply list_alter_ext; [|done].
  all: intros y Hy; rewrite Hacc in Hy; injection Hy as <-.
  all: by rewrite Hfin.
Qed.

Lemma normalize_from_refines64 (done_ todo : list Normal) :
  3 * Z.of_nat (length (done_ ++ todo)) <= 2 ^ 64 ->
  for_each normalize_vertex (Z.of_nat <$> seq (length done_) (length todo))
           (interleave (done_ ++ todo))
    = Some (interleave (done_ ++ (finish_normal <$> todo))).
Proof.
  revert done_. induction todo as [|acc todo IH]; intros done_ Hsmall.
  - done.
  - cbn [length seq fmap list_fmap for_each].
    rewrite normalize_vertex_refines64; [|rewrite length_app; cbn [length]; lia|done].
    rewrite bind_some_l.
    replace (length done_) with (length done_ + 0)%nat at 2 by lia.
    rewrite alter_app_r. cbn [alter list_alter].
    rewrite (cons_middle (finish_normal acc)), app_assoc.
    replace (S (length done_)) with (length (done_ ++ [finish_normal acc]))
      by (rewrite length_app; cbn [length]; lia).
    rewrite IH.
    + by rewrite <- app_assoc.
    + rewrite !length_app in *. cbn [length] in *. lia.
Qed.

Lemma normalize_all_refines64 (accs : list Normal) :
  3 * Z.of_nat (length accs) <= 2 ^ 64 ->
  for_each normalize_vertex (upto (length accs)) (interleave accs)
    = Some (interleave (finish_normal <$> accs)).
Proof. intros Hsmall. by apply (normalize_from_refines64 [] accs). Qed.

(** The inner loop for an index whose own slots do not wrap. *)
Lemma accumulate_at normal (accs : list Normal) (f : Z) :
  0 <= f -> f * 3 + 2 < 2 ^ 32 ->
  (Z.to_nat f < length accs)%nat ->
  accumulate normal (interleave accs) f
    = Some (interleave (alter (add_normal normal) (Z.to_nat f) accs)).
Proof.
  intros Hf Hsmall Hlen. unfold accumulate.
  rewrite !(u32_slot_exact f _ (f + 1)) by lia.
  rewrite vec_add_alter by (rewrite length_interleave; lia). rewrite bind_some_l.
  rewrite vec_add_alter by (rewrite length_alter, length_interleave; lia).
  rewrite bind_some_l.
  rewrite vec_add_alter by (rewrite !length_alter, length_interleave; lia).
  f_equal.
  replace (Z.to_nat (f * 3 + 0)) with (3 * Z.to_nat f + 0)%nat by lia.
  replace (Z.to_nat (f * 3 + 1)) with (3 * Z.to_nat f + 1)%nat by lia.
  replace (Z.to_nat (f * 3 + 2)) with (3 * Z.to_nat f + 2)%nat by lia.
  rewrite !interleave_alter by lia. f_equal.
  rewrite !list_alter_alter_eq.
  apply list_alter_ext; [|done]. by intros [[a b] c] _.
Qed.

(** The inner loop for the index 1431655765 in an array of more than 2^32
    slots. *)
Lemma accumulate_wrapped normal (accs : list Normal) :
  2 ^ 32 + 2 <= 3 * Z.of_nat (length accs) ->
  accumulate normal (interleave accs) 1431655765
    = Some (interleave (wrapped_add normal accs)).
Proof.
  intros Hlen. unfold accumulate, wrapped_add.
  change (u32 (u32 (1431655765 * 3) + 0)) with 4294967295.
  change (u32 (u32 (1431655765 * 3) + 1)) with 0.
  change (u32 (u32 (1431655765 * 3) + 2)) with 1.
  pose (top := Z.to_nat 1431655765).
  assert (Z.of_nat top = 1431655765) as Htop by (unfold top; lia).
  change (Z.to_nat 1431655765) with top. clearbody top.
  rewrite vec_add_alter by (rewrite length_interleave; lia). rewrite bind_some_l.
  rewrite vec_add_alter by (rewrite length_alter, length_interleave; lia).
  rewrite bind_some_l.
  rewrite vec_add_alter by (rewrite !length_alter, length_interleave; lia).
  f_equal.
  replace (Z.to_nat 4294967295) with (3 * top + 0)%nat by lia.
  change (Z.to_nat 0) with (3 * 0 + 0)%nat.
  change (Z.to_nat 1) with (3 * 0 + 1)%nat.
  by rewrite !interleave_alter by lia.
Qed.

End WrappedExtraction.

Section WrappedFace.
Context `{Numeric}.

(** A face whose third index is 1431655765, in a mesh of more than
    1431655765 vertices: the normal goes to the first two vertices, and for
    the third its y and z components go to vertex 0. *)
Lemma face_step_wrapped vertices ids (accs : list Normal) f0 f1 a b c :
  length accs = length vertices ->
  2 ^ 32 + 2 <= 3 * Z.of_nat (length vertices) ->
  0 <= f0 -> f0 * 3 + 2 < 2 ^ 32 ->
  0 <= f1 -> f1 * 3 + 2 < 2 ^ 32 ->
  vertices !! Z.to_nat f0 = Some a ->
  vertices !! Z.to_nat f1 = Some b ->
  vertices !! Z.to_nat 1431655765 = Some c ->
  d_gt0 (vec_norm (vec_cross (vec_sub b a) (vec_sub c a))) = true ->
  face_step vertices (Z.of_nat (length vertices)) (ids, interleave accs)
            [f0; f1; 1431655765]
    = Some (ids ++ [f0; f1; 1431655765],
            interleave
              (wrapped_add
                 (vec_div (vec_cross (vec_sub b a) (vec_sub c a))
                          (vec_norm (vec_cross (vec_sub b a) (vec_sub c a))))
                 (alter (add_normal
                           (vec_div (vec_cross (vec_sub b a) (vec_sub c a))
                                    (vec_norm (vec_cross (vec_sub b a) (vec_sub c a)))))
                        (Z.to_nat f1)
                        (alter (add_normal
                                  (vec_div (vec_cross (vec_sub b a) (vec_sub c a))
                                           (vec_norm (vec_cross (vec_sub b a)
                                                                (vec_sub c a)))))
                               (Z.to_nat f0) accs)))).
Proof.
  intros Hlen Hbig Hf0 Hs0 Hf1 Hs1 Ha Hb Hc Hgt.
  unfold face_step. cbn [fst snd].
  rewrite (u32_small f0), (u32_small f1), (u32_small 1431655765) by lia.
  rewrite (proj2 (Z.ltb_lt f0 _)), (proj2 (Z.ltb_lt f1 _)),
    (proj2 (Z.ltb_lt 1431655765 _)) by lia.
  cbn [andb].
  rewrite !vec_get_lookup by lia.
  rewrite Ha, bind_some_l, Hb, bind_some_l, Hc, bind_some_l.
  cbv zeta. rewrite Hgt.
  cbn [for_each].
  rewrite accumulate_at by lia. rewrite bind_some_l.
  rewrite accumulate_at by (rewrite ?length_alter; lia). rewrite bind_some_l.
  rewrite accumulate_wrapped by (rewrite !length_alter; lia).
  by rewrite !bind_some_l.
Qed.

Lemma length_wrapped_add n (accs : list Normal) :
  length (wrapped_add n accs) = length accs.
Proof. unfold wrapped_add. by rewrite !length_alter. Qed.

(** The whole extraction of a mesh whose single face is such a face. *)
Lemma fill_mesh_wrapped ps f0 f1 a b c :
  ps_indices ps = [[f0; f1; 1431655765]] ->
  2 ^ 32 + 2 <= 3 * Z.of_nat (length (ps_vertices ps)) ->
  3 * Z.of_nat (length (ps_vertices ps)) <= 2 ^ 64 ->
  0 <= f0 -> f0 * 3 + 2 < 2 ^ 32 ->
  0 <= f1 -> f1 * 3 + 2 < 2 ^ 32 ->
  ps_vertices ps !! Z.to_nat f0 = Some a ->
  ps_vertices ps !! Z.to_nat f1 = Some b ->
  ps_vertices ps !! Z.to_nat 1431655765 = Some c ->
  d_gt0 (vec_norm (vec_cross (vec_sub b a) (vec_sub c a))) = true ->
  exists r,
    fill_mesh ps new_result = Some r
    /\ normals r
       = interleave
           (finish_normal <$>
              wrapped_add
                (vec_div (vec_cross (vec_sub b a) (vec_sub c a))
                         (vec_norm (vec_cross (vec_sub b a) (vec_sub c a))))
                (alter (add_normal
                          (vec_div (vec_cross (vec_sub b a) (vec_sub c a))
                                   (vec_norm (vec_cross (vec_sub b a) (vec_sub c a)))))
                       (Z.to_nat f1)
                       (alter (add_normal
                                 (vec_div (vec_cross (vec_sub b a) (vec_sub c a))
                                          (vec_norm (vec_cross (vec_sub b a)
                                                               (vec_sub c a)))))
                              (Z.to_nat f0)
                              (replicate (length (ps_vertices ps)) zero_normal)))).
Proof.
  intros Hfaces Hbig Hfit Hf0 Hs0 Hf1 Hs1 Ha Hb Hc Hgt.
  unfold fill_mesh. rewrite push_vertices, Hfaces.
  cbn [fst snd positions normals indices new_result app for_each].
  rewrite (face_step_wrapped _ _ _ f0 f1 a b c)
    by (done || by rewrite length_replicate).
  rewrite !bind_some_l. cbn [fst snd].
  set (accs := wrapped_add _ _).
  assert (length accs = length (ps_vertices ps)) as Hlen.
  { unfold accs. by rewrite length_wrapped_add, !length_alter, length_replicate. }
  assert (for_each normalize_vertex (upto (length (ps_vertices ps))) (interleave accs)
          = Some (interleave (finish_normal <$> accs))) as Hn.
  { rewrite <- Hlen. apply normalize_all_refines64. lia. }
  rewrite Hn, bind_some_l. eexists. split; [reflexivity|]. done.
Qed.

(** What vertex 0 has accumulated after such a face, when the face does
    not use it. *)
Lemma wrapped_add_first n (accs : list Normal) g0 g1 (i0 i1 : nat) :
  (0 < length accs)%nat -> i0 <> 0%nat -> i1 <> 0%nat ->
  wrapped_add n (alter g1 i1 (alter g0 i0 accs)) !! 0%nat
    = (fun acc => on_component 1 (fun a => f_add a (to_float (vec_z n)))
                    (on_component 0 (fun a => f_add a (to_float (vec_y n))) acc))
        <$> accs !! 0%nat.
Proof.
  intros Hlen H0 H1. unfold wrapped_add.
  rewrite !list_lookup_alter_eq.
  rewrite list_lookup_alter_ne by lia.
  rewrite !list_lookup_alter_ne by done.
  by destruct (accs !! 0%nat).
Qed.

End WrappedFace.

(** *** The extractor on a mesh of 1431655766 vertices *)

Lemma mesh_of_size_run (extra : nat) :
  Z.of_nat extra = 1431655763 ->
  exists r,
    fill_mesh (mesh_of_size extra) new_result = Some r
    /\ normals r !! 0%nat = Some minus_one32
    /\ interleave (vertex_normals (mesh_of_size extra)) !! 0%nat = Some zero32.
Proof.
  intros Hextra.
  assert (Z.of_nat (length (ps_vertices (mesh_of_size extra))) = 1431655766) as Hsize.
  { unfold mesh_of_size. cbn [ps_vertices].
    rewrite length_app, length_replicate. cbn [length]. lia. }
  assert (ps_vertices (mesh_of_size extra) !! Z.to_nat 1431655765 = Some (pt 0 0 1))
    as Hlast.
  { unfold mesh_of_size. cbn [ps_vertices].
    rewrite lookup_app_r by (cbn [length]; lia).
    apply lookup_replicate_2. cbn [length]. lia. }
  destruct (fill_mesh_wrapped (mesh_of_size extra) 1 2 (pt 0 0 0) (pt 1 0 0) (pt 0 0 1))
    as (r & Hr & Hn).
  { reflexivity. }
  { rewrite Hsize. lia. }
  { rewrite Hsize. lia. }
  { lia. }
  { lia. }
  { lia. }
  { lia. }
  { reflexivity. }
  { reflexivity. }
  { exact Hlast. }
  { reflexivity. }
  exists r. split; [exact Hr|]. split.
  - rewrite Hn.
    etransitivity; [exact (interleave_lookup _ 0 0 ltac:(lia))|].
    rewrite list_lookup_fmap.
    rewrite wrapped_add_first; [|rewrite length_replicate; lia|lia|lia].
    rewrite lookup_replicate_2 by lia.
    reflexivity.
  - etransitivity; [exact (interleave_lookup _ 0 0 ltac:(lia))|].
    unfold vertex_normals. rewrite list_lookup_fmap.
    rewrite accumulate_faces_elsewhere.
    + rewrite lookup_replicate_2 by lia. reflexivity.
    + constructor; [|constructor]. intros _ Hin.
      change (In 0 [u32 1; u32 2; u32 1431655765]) in Hin.
      rewrite !u32_small in Hin by lia.
      cbn [In] in Hin. lia.
Qed.

(** C5 fails on the code: in the mesh [huge_mesh] vertex 0 belongs to no
    face, so its normal should be the default (0,0,1), as the specified
    [vertex_normals] has it (x component 0); but for the third vertex of
    the face, 1431655765, the 32-bit slot indices [idx * 3 + 1] and
    [idx * 3 + 2] wrap to 0 and 1, the y and z components of the face
    normal (0,-1,0) are added to vertex 0, and extraction returns -1 as
    the x component of the normal of vertex 0. *)
Theorem extract_normals_wrap_in_huge_mesh :
  exists r,
    @extractMeshData _ (scripted (plain huge_mesh)) huge_mesh new_result (boot _)
      = (Ok r, boot _)
    /\ normals r !! 0%nat = Some minus_one32
    /\ interleave (vertex_normals huge_mesh) !! 0%nat = Some zero32.
Proof.
  destruct (mesh_of_size_run (Z.to_nat 1431655763) (Z2Nat.id 1431655763 ltac:(lia)))
    as (r & Hr & Hcode & Hspec).
  exists r. split; [|split; [exact Hcode|exact Hspec]].
  rewrite (extractMeshData_run _ _ _ huge_mesh (boot (plain huge_mesh))).
  - unfold lift, huge_mesh. rewrite Hr. reflexivity.
  - reflexivity.
Qed.
